(** * modern_task_manager.py: sampling and reconciliation

    A shallow embedding of the data paths of [ModernTaskManager]: the three
    capture functions ([get_processes], [get_services],
    [get_performance_data]), the sampler loop ([update_data]) and the
    reconciler that runs on the presentation thread ([update_ui],
    [update_performance_ui], [restore_scroll_positions]).

    Conventions.
    - A Python [str] is a [string]; a character is a code point below 256.
    - A Python [int] is a [Z], a Python [float] is a binary64 [float].
    - Code that may raise returns a [result]; [try]/[except] is [try_except].
    - Widgets are records holding what the code stores into them. *)

From Stdlib Require Import ZArith List String Ascii Lia.
From Stdlib Require Import PrimFloat FloatOps SpecFloat DecimalString.
From stdpp Require Import base option list strings.

Open Scope string_scope.
Open Scope Z_scope.
Open Scope list_scope.

(** ** Exceptions *)

Inductive exn : Type :=
  | FileNotFoundError
  | PermissionError
  | UnicodeDecodeError
  | NoSuchProcess
  | AccessDenied
  | IndexError
  | OtherError (msg : string).

Inductive result (A : Type) : Type :=
  | Ok (a : A)
  | Raise (e : exn).

Arguments Ok {A} a.
Arguments Raise {A} e.

#[global] Instance result_ret : MRet result := fun A a => Ok a.

#[global] Instance result_bind : MBind result := fun A B k m =>
  match m with
  | Ok a => k a
  | Raise e => Raise e
  end.

(** [try: body except: handler], the bare [except:] of [get_services]. *)
Definition try_except {A} (body : result A) (handler : exn -> result A) : result A :=
  match body with
  | Ok a => Ok a
  | Raise e => handler e
  end.

(** [for x in l: s = body(s, x)], stopping at the first exception. *)
Fixpoint for_each {A S : Type} (body : S -> A -> result S) (l : list A) (s : S)
  : result S :=
  match l with
  | [] => Ok s
  | x :: l' => s' ← body s x; for_each body l' s'
  end.

(** ** Python string and list primitives *)

Module Py.

(** [str.isspace] on one character, for code points below 256. *)
Definition isspace (c : ascii) : bool :=
  let n := N_of_ascii c in
  (((9 <=? n) && (n <=? 13)) || ((28 <=? n) && (n <=? 32))
   || (n =? 133) || (n =? 160))%N.

Definition newline : ascii := "010"%char.

(** [s.split(sep)] for a one-character separator: never empty. *)
Fixpoint split_on (sep : ascii) (s : string) : list string :=
  match s with
  | "" => [""]
  | String c s' =>
      if Ascii.eqb c sep then "" :: split_on sep s'
      else match split_on sep s' with
           | [] => [String c ""]
           | h :: t => String c h :: t
           end
  end.

Fixpoint lstrip (s : string) : string :=
  match s with
  | "" => ""
  | String c s' => if isspace c then lstrip s' else s
  end.

Fixpoint rstrip (s : string) : string :=
  match s with
  | "" => ""
  | String c s' =>
      match rstrip s' with
      | "" => if isspace c then "" else String c ""
      | r => String c r
      end
  end.

(** [s.strip()] *)
Definition strip (s : string) : string := rstrip (lstrip s).

(** [s.split()]: maximal runs of non-whitespace, [cur] being the run read
    so far. *)
Fixpoint split_ws (cur : string) (s : string) : list string :=
  match s with
  | "" => match cur with "" => [] | _ => [cur] end
  | String c s' =>
      if isspace c
      then match cur with
           | "" => split_ws "" s'
           | _ => cur :: split_ws "" s'
           end
      else split_ws (cur +:+ String c "") s'
  end.

Definition split (s : string) : list string := split_ws "" s.

(** Truth value of a [str]. *)
Definition truthy_str (s : string) : bool :=
  match s with "" => false | _ => true end.

(** Truth value of an [int]. *)
Definition truthy_int (n : Z) : bool := negb (n =? 0).

(** [l[i:j]] for [0 <= i <= j]. *)
Definition slice {A} (i j : nat) (l : list A) : list A :=
  take (j - i) (drop i l).

(** [l[i]] for [0 <= i]. *)
Definition getitem {A} (l : list A) (i : nat) : result A :=
  match l !! i with
  | Some x => Ok x
  | None => Raise IndexError
  end.

(** [str(n)] *)
Definition str_int (n : Z) : string := NilZero.string_of_int (Z.to_int n).

End Py.

(** ** Service source: [get_services] *)

(** A row of [services_list]: [Gtk.ListStore(str, str, str, str)]. *)
Record ServiceRow : Type := mkService {
  svc_name : string;
  svc_status : string;
  svc_description : string;
  svc_pid : string
}.

(** What [subprocess.run(..., capture_output=True, text=True)] returns. *)
Record CompletedProcess : Type := mkCompleted {
  returncode : Z;
  stdout : string;
  stderr : string
}.

Definition fallback_services : list ServiceRow :=
  [ mkService "ssh.service" "active" "OpenSSH Server" "1234";
    mkService "cron.service" "active" "Cron Daemon" "5678";
    mkService "nginx.service" "active" "Web Server" "9012" ].

(** The body of [for line in lines[1:6]]. *)
Definition service_step (services : list ServiceRow) (line : string)
  : result (list ServiceRow) :=
  if Py.truthy_str (Py.strip line) then
    let parts := Py.split line in
    if (4 <=? length parts)%nat then
      name ← Py.getitem parts 0;
      status ← Py.getitem parts 3;
      Ok (services ++ [mkService name status "System Service" "N/A"])
    else Ok services
  else Ok services.

(** [run] is the outcome of the [subprocess.run] call: it raises when the
    binary cannot be started or its output cannot be decoded, and returns a
    [CompletedProcess] otherwise, whatever the exit status. *)
Definition get_services (run : result CompletedProcess) : result (list ServiceRow) :=
  try_except
    (result ← run;
     let lines := Py.split_on Py.newline (stdout result) in
     for_each service_step (Py.slice 1 6 lines) [])
    (fun _ => Ok fallback_services).

(** ** OS snapshot source: [get_processes], [get_performance_data] *)

(** A row of [process_list]: [Gtk.ListStore(str, int, str, str, float, float)]. *)
Record ProcRow : Type := mkProc {
  proc_name : string;
  proc_pid : Z;
  proc_status : string;
  proc_username : string;
  proc_cpu_percent : float;
  proc_memory_percent : float
}.

(** One item of [psutil.process_iter(...)]: building the tuple from
    [proc.info] gives the six fields, or raises one of the two psutil errors
    the loop catches. *)
Inductive ProcRead : Type :=
  | Info (row : ProcRow)
  | RaisesNoSuchProcess
  | RaisesAccessDenied.

(** The body of [for proc in psutil.process_iter(...)]. *)
Definition process_step (processes : list ProcRow) (proc : ProcRead) : list ProcRow :=
  match proc with
  | Info row => processes ++ [row]
  | RaisesNoSuchProcess => processes
  | RaisesAccessDenied => processes
  end.

Definition get_processes (process_iter : list ProcRead) : list ProcRow :=
  fold_left process_step process_iter [].

(** [psutil.virtual_memory()] and [psutil.disk_usage('/')], as far as read. *)
Record svmem : Type := mkSvmem {
  vm_total : Z;
  vm_used : Z;
  vm_percent : float
}.

Record sdiskusage : Type := mkSdiskusage {
  du_total : Z;
  du_used : Z;
  du_percent : float
}.

(** What the OS answers to the four reads of [get_performance_data]. *)
Record OsStats : Type := mkOsStats {
  os_cpu_percent : float;
  os_virtual_memory : svmem;
  os_disk_usage : sdiskusage;
  os_boot_time : float
}.

(** The dict returned by [get_performance_data]. *)
Record Performance : Type := mkPerformance {
  cpu_percent : float;
  memory_percent : float;
  memory_used : Z;
  memory_total : Z;
  disk_percent : float;
  disk_used : Z;
  disk_total : Z;
  boot_time : string
}.

Section PerformanceSource.

(** [datetime.fromtimestamp(t).strftime("%Y-%m-%d %H:%M:%S")]: local-time
    formatting belongs to the platform. *)
Variable strftime_local : float -> string.

Definition get_performance_data (os : OsStats) : Performance :=
  let cpu_percent := os_cpu_percent os in
  let memory := os_virtual_memory os in
  let disk := os_disk_usage os in
  {| cpu_percent := cpu_percent;
     memory_percent := vm_percent memory;
     memory_used := vm_used memory / 1024 ^ 3;
     memory_total := vm_total memory / 1024 ^ 3;
     disk_percent := du_percent disk;
     disk_used := du_used disk / 1024 ^ 3;
     disk_total := du_total disk / 1024 ^ 3;
     boot_time := strftime_local (os_boot_time os) |}.

End PerformanceSource.

(** ** Number formatting *)

(** [num / den] rounded to the nearest integer, ties to even ([0 < den]). *)
Definition round_half_even (num den : Z) : Z :=
  let q := num / den in
  let r := num mod den in
  if 2 * r <? den then q
  else if den <? 2 * r then q + 1
  else if Z.even q then q else q + 1.

(** [f"{x:.1f}"]: the exact binary value, correctly rounded to one decimal. *)
Definition format_1f (x : float) : string :=
  match Prim2SF x with
  | S754_nan => "nan"
  | S754_infinity s => if s then "-inf" else "inf"
  | S754_zero s => if s then "-0.0" else "0.0"
  | S754_finite s m e =>
      let tenths :=
        if 0 <=? e then Z.pos m * 2 ^ e * 10
        else round_half_even (Z.pos m * 10) (2 ^ (- e)) in
      (if s then "-" else "")
        +:+ Py.str_int (tenths / 10) +:+ "." +:+ Py.str_int (tenths mod 10)
  end.

(** [f"{n}"] for the value of [psutil.cpu_count()], an [int] or [None]. *)
Definition format_cpu_count (n : option Z) : string :=
  match n with
  | Some k => Py.str_int k
  | None => "None"
  end.

(** ** Widgets *)

(** A [Gtk.ListStore] shown by a [Gtk.TreeView] in single-selection mode:
    rows in store order (no sort column active) and the index of the selected
    row, if any. *)
Record TreeView (A : Type) : Type := mkTreeView {
  rows : list A;
  selected : option nat
}.

Arguments mkTreeView {A} rows selected.
Arguments rows {A} t.
Arguments selected {A} t.

(** [selection.get_selected()] followed by [model[iter]]. *)
Definition get_selected {A} (view : TreeView A) : option A :=
  i ← selected view; rows view !! i.

(** [store.clear()]: every row goes, and the selection with them. *)
Definition list_store_clear {A} (view : TreeView A) : TreeView A :=
  {| rows := []; selected := None |}.

(** [store.append(row)] *)
Definition list_store_append {A} (view : TreeView A) (row : A) : TreeView A :=
  {| rows := rows view ++ [row]; selected := selected view |}.

(** [selection.select_iter(row.iter)] for the row at index [i]. *)
Definition select_iter {A} (view : TreeView A) (i : nat) : TreeView A :=
  {| rows := rows view; selected := Some i |}.

(** [for i, row in enumerate(rows): if matches(row): select; break], the
    enumeration starting at index [i]. *)
Fixpoint select_first_match {A} (matches : A -> bool) (remaining : list A) (i : nat)
    (view : TreeView A) : TreeView A :=
  match remaining with
  | [] => view
  | row :: rest =>
      if matches row then select_iter view i
      else select_first_match matches rest (S i) view
  end.

(** The vertical [Gtk.Adjustment] of a scrolled window, as the value last
    stored into it; the toolkit's own range handling is not part of the
    program. *)
Record Adjustment : Type := mkAdjustment {
  get_value : float
}.

Definition set_value (adj : Adjustment) (value : float) : Adjustment :=
  {| get_value := value |}.

(** The labels and progress bars of the performance tab. *)
Record PerformanceTab : Type := mkPerformanceTab {
  cpu_label : string;
  cpu_progress_fraction : float;
  cpu_progress_text : string;
  mem_label : string;
  mem_progress_fraction : float;
  mem_progress_text : string;
  disk_label : string;
  disk_progress_fraction : float;
  disk_progress_text : string;
  info_label : string
}.

(** The fields of [ModernTaskManager] that [update_ui] reads or writes.
    [status_bar] is the message stack, newest first. *)
Record Gui : Type := mkGui {
  treeview : TreeView ProcRow;
  services_treeview : TreeView ServiceRow;
  processes_scroll_pos : float;
  services_scroll_pos : float;
  processes_scrolled : Adjustment;
  services_scrolled : Adjustment;
  performance_tab : PerformanceTab;
  status_bar : list string
}.

Definition with_treeview (f : TreeView ProcRow -> TreeView ProcRow) (self : Gui) : Gui :=
  mkGui (f (treeview self)) (services_treeview self)
        (processes_scroll_pos self) (services_scroll_pos self)
        (processes_scrolled self) (services_scrolled self)
        (performance_tab self) (status_bar self).

Definition with_services_treeview (f : TreeView ServiceRow -> TreeView ServiceRow)
    (self : Gui) : Gui :=
  mkGui (treeview self) (f (services_treeview self))
        (processes_scroll_pos self) (services_scroll_pos self)
        (processes_scrolled self) (services_scrolled self)
        (performance_tab self) (status_bar self).

(** [status_bar.push(context_id, text)] *)
Definition status_bar_push (text : string) (self : Gui) : Gui :=
  mkGui (treeview self) (services_treeview self)
        (processes_scroll_pos self) (services_scroll_pos self)
        (processes_scrolled self) (services_scrolled self)
        (performance_tab self) (text :: status_bar self).

(** ** Scroll bookkeeping *)

(** Handler of [value-changed] on the processes adjustment. *)
Definition on_processes_scroll (adjustment : Adjustment) (self : Gui) : Gui :=
  mkGui (treeview self) (services_treeview self)
        (get_value adjustment) (services_scroll_pos self)
        (processes_scrolled self) (services_scrolled self)
        (performance_tab self) (status_bar self).

(** Handler of [value-changed] on the services adjustment. *)
Definition on_services_scroll (adjustment : Adjustment) (self : Gui) : Gui :=
  mkGui (treeview self) (services_treeview self)
        (processes_scroll_pos self) (get_value adjustment)
        (processes_scrolled self) (services_scrolled self)
        (performance_tab self) (status_bar self).

(** [vadj.set_value(v)] on the processes list; the adjustment then signals
    [value-changed], which runs [on_processes_scroll]. *)
Definition processes_set_value (value : float) (self : Gui) : Gui :=
  let vadj_process := set_value (processes_scrolled self) value in
  on_processes_scroll vadj_process
    (mkGui (treeview self) (services_treeview self)
           (processes_scroll_pos self) (services_scroll_pos self)
           vadj_process (services_scrolled self)
           (performance_tab self) (status_bar self)).

Definition services_set_value (value : float) (self : Gui) : Gui :=
  let vadj_services := set_value (services_scrolled self) value in
  on_services_scroll vadj_services
    (mkGui (treeview self) (services_treeview self)
           (processes_scroll_pos self) (services_scroll_pos self)
           (processes_scrolled self) vadj_services
           (performance_tab self) (status_bar self)).

Definition restore_scroll_positions (self : Gui) : Gui :=
  let self := processes_set_value (processes_scroll_pos self) self in
  services_set_value (services_scroll_pos self) self.

(** ** Reconciler: [update_ui] *)

Definition percent_text (x : float) : string := format_1f x +:+ "%".

Definition usage_text (used total : Z) (percent : float) : string :=
  "Used: " +:+ Py.str_int used +:+ "GB / " +:+ Py.str_int total +:+ "GB "
    +:+ "(" +:+ format_1f percent +:+ "%)".

(** [cpu_count] is what [psutil.cpu_count()] answers during the call. *)
Definition update_performance_ui (cpu_count : option Z) (performance : Performance)
    (self : Gui) : Gui :=
  let tab :=
    {| cpu_label := "Total CPU Usage: " +:+ format_1f (cpu_percent performance) +:+ "%";
       cpu_progress_fraction := (cpu_percent performance / 100)%float;
       cpu_progress_text := percent_text (cpu_percent performance);
       mem_label := usage_text (memory_used performance) (memory_total performance)
                               (memory_percent performance);
       mem_progress_fraction := (memory_percent performance / 100)%float;
       mem_progress_text := percent_text (memory_percent performance);
       disk_label := usage_text (disk_used performance) (disk_total performance)
                                (disk_percent performance);
       disk_progress_fraction := (disk_percent performance / 100)%float;
       disk_progress_text := percent_text (disk_percent performance);
       info_label := "Boot Time: " +:+ boot_time performance +:+ String Py.newline ""
                     +:+ "CPU Cores: " +:+ format_cpu_count cpu_count
                     +:+ String Py.newline ""
                     +:+ "Memory Total: " +:+ Py.str_int (memory_total performance)
                     +:+ "GB" |} in
  mkGui (treeview self) (services_treeview self)
        (processes_scroll_pos self) (services_scroll_pos self)
        (processes_scrolled self) (services_scrolled self)
        tab (status_bar self).

(** [if selected_pid: for ... if row[1] == selected_pid: select; break] *)
Definition restore_process_selection (selected_pid : option Z)
    (view : TreeView ProcRow) : TreeView ProcRow :=
  match selected_pid with
  | Some pid =>
      if Py.truthy_int pid
      then select_first_match (fun row => proc_pid row =? pid) (rows view) 0 view
      else view
  | None => view
  end.

(** [if selected_service: for ... if row[0] == selected_service: select; break] *)
Definition restore_service_selection (selected_service : option string)
    (view : TreeView ServiceRow) : TreeView ServiceRow :=
  match selected_service with
  | Some name =>
      if Py.truthy_str name
      then select_first_match (fun row => String.eqb (svc_name row) name) (rows view) 0 view
      else view
  | None => view
  end.

Definition status_text (processes : list ProcRow) (performance : Performance) : string :=
  "Processes: " +:+ Py.str_int (Z.of_nat (length processes)) +:+ " | "
    +:+ "CPU: " +:+ format_1f (cpu_percent performance) +:+ "% | "
    +:+ "Memory: " +:+ format_1f (memory_percent performance) +:+ "%".

Definition update_ui (cpu_count : option Z) (processes : list ProcRow)
    (services : list ServiceRow) (performance : Performance) (self : Gui) : Gui :=
  (* Store current selection *)
  let selected_pid := proc_pid <$> get_selected (treeview self) in
  let selected_service := svc_name <$> get_selected (services_treeview self) in
  (* Update processes *)
  let self := with_treeview list_store_clear self in
  let self := with_treeview (fold_left list_store_append processes) self in
  (* Update services *)
  let self := with_services_treeview list_store_clear self in
  let self := with_services_treeview (fold_left list_store_append services) self in
  (* Restore selections if possible *)
  let self := with_treeview (restore_process_selection selected_pid) self in
  let self := with_services_treeview (restore_service_selection selected_service) self in
  (* Update performance *)
  let self := update_performance_ui cpu_count performance self in
  (* Restore scroll positions *)
  let self := restore_scroll_positions self in
  (* Update status bar *)
  status_bar_push (status_text processes performance) self.

(** ** Sampler loop: [update_data] *)

(** The arguments handed to [GLib.idle_add] with [update_ui]. *)
Record Snapshot : Type := mkSnapshot {
  snap_processes : list ProcRow;
  snap_services : list ServiceRow;
  snap_performance : Performance
}.

(** What the sampler thread does to the outside, in the order it does it. *)
Inductive Event : Type :=
  | CaptureProcesses
  | CaptureServices
  | CapturePerformance
  | IdleAdd (snapshot : Snapshot)
  | Sleep (seconds : Z).

(** What the OS answers during one iteration of the loop. *)
Record OsAnswer : Type := mkOsAnswer {
  ans_process_iter : list ProcRead;
  ans_systemctl : result CompletedProcess;
  ans_stats : OsStats
}.

(** A computation of the sampler thread: it extends the trace of events and
    returns a value or dies with an exception. *)
Definition Thread (A : Type) : Type := list Event -> list Event * result A.

#[global] Instance thread_ret : MRet Thread := fun A a trace => (trace, Ok a).

#[global] Instance thread_bind : MBind Thread := fun A B k m trace =>
  match m trace with
  | (trace', Ok a) => k a trace'
  | (trace', Raise e) => (trace', Raise e)
  end.

(** Performs [event], then returns or raises what [outcome] holds. *)
Definition perform {A} (event : Event) (outcome : result A) : Thread A :=
  fun trace => (trace ++ [event], outcome).

Definition update_interval : Z := 10.

Section Sampler.

Variable strftime_local : float -> string.

(** [os i] is what the OS answers during iteration [i]. *)
Variable os : nat -> OsAnswer.

(** The body of [while True] in [update_thread], at iteration [i]. *)
Definition update_thread_body (i : nat) : Thread unit :=
  processes ← perform CaptureProcesses (Ok (get_processes (ans_process_iter (os i))));
  services ← perform CaptureServices (get_services (ans_systemctl (os i)));
  performance ← perform CapturePerformance
                  (Ok (get_performance_data strftime_local (ans_stats (os i))));
  _ ← perform (IdleAdd (mkSnapshot processes services performance)) (Ok tt);
  perform (Sleep update_interval) (Ok tt).

(** [n] iterations of [while True], starting at iteration [i]. The loop has
    no exit: after any number of iterations it is still running. *)
Fixpoint update_thread (n : nat) (i : nat) : Thread unit :=
  match n with
  | O => mret tt
  | S n' => _ ← update_thread_body i; update_thread n' (S i)
  end.

(** The daemon thread started by [update_data], watched for its first [n]
    iterations from an empty trace. *)
Definition update_data (n : nat) : list Event * result unit :=
  update_thread n 0 [].

(** [snapshot] holds the three captures of iteration [i]. *)
Definition snapshot_of_iteration (i : nat) (snapshot : Snapshot) : Prop :=
  snap_processes snapshot = get_processes (ans_process_iter (os i)) /\
  get_services (ans_systemctl (os i)) = Ok (snap_services snapshot) /\
  snap_performance snapshot = get_performance_data strftime_local (ans_stats (os i)).

End Sampler.

(** ** Window icon: [set_window_icon] *)

(** The two icon properties of [self.window] the method writes. *)
Record Window : Type := mkWindow {
  icon_name : option string;
  icon_file : option string
}.

(** What [window.set_icon_from_file(path)] does: it loads the file, or
    raises an [Exception] whose text is [message]. *)
Inductive LoadOutcome : Type :=
  | Loaded
  | LoadRaises (message : string).

Definition icon_names : list string :=
  ["modern-task-manager"; "system-task-manager"; "utilities-system-monitor"].

Section WindowIcon.

(** [os.path.expanduser] *)
Variable expanduser : string -> string.

(** Whether [window.set_icon_name(name)] raises. *)
Variable set_icon_name_raises : string -> bool.

(** [os.path.exists] *)
Variable path_exists : string -> bool.

Variable set_icon_from_file : string -> LoadOutcome.

Definition icon_paths : list string :=
  [ expanduser "~/.local/share/icons/hicolor/scalable/apps/modern-task-manager.svg";
    expanduser "~/.local/share/icons/hicolor/256x256/apps/modern-task-manager.png";
    "/usr/share/icons/hicolor/scalable/apps/modern-task-manager.svg";
    "/usr/share/pixmaps/modern-task-manager.png" ].

(** [for icon_name in names: try: set_icon_name(icon_name); break
    except: continue] *)
Fixpoint try_icon_names (names : list string) (window : Window) : Window :=
  match names with
  | [] => window
  | name :: rest =>
      if set_icon_name_raises name then try_icon_names rest window
      else {| icon_name := Some name; icon_file := icon_file window |}
  end.

(** [for icon_path in paths: if os.path.exists(icon_path): try:
    set_icon_from_file(icon_path); break except Exception as e: print(...)],
    [printed] being the lines printed so far. *)
Fixpoint try_icon_paths (paths : list string) (window : Window) (printed : list string)
  : Window * list string :=
  match paths with
  | [] => (window, printed)
  | icon_path :: rest =>
      if path_exists icon_path then
        match set_icon_from_file icon_path with
        | Loaded =>
            ({| icon_name := icon_name window; icon_file := Some icon_path |}, printed)
        | LoadRaises e =>
            try_icon_paths rest window
              (printed ++ ["Could not load icon from " +:+ icon_path +:+ ": " +:+ e])
        end
      else try_icon_paths rest window printed
  end.

(** The window after the call and the lines it printed. *)
Definition set_window_icon (window : Window) : Window * list string :=
  let window := try_icon_names icon_names window in
  try_icon_paths icon_paths window [].

End WindowIcon.

(** ** Button handlers: [on_end_process], [on_refresh] *)

(** What a handler does besides writing to the widgets of [Gui]. *)
Inductive UiEvent : Type :=
  | RunConfirmDialog (secondary_text : string)
  | DestroyConfirmDialog
  | Terminate (pid : Z)
  | RunErrorDialog (e : exn)
  | DestroyErrorDialog.

Record UiState : Type := mkUiState {
  ui_gui : Gui;
  ui_log : list UiEvent
}.

(** A computation on the presentation thread: it changes the widgets,
    extends the log of events, and returns or raises. *)
Definition Ui (A : Type) : Type := UiState -> UiState * result A.

#[global] Instance ui_ret : MRet Ui := fun A a st => (st, Ok a).

#[global] Instance ui_bind : MBind Ui := fun A B k m st =>
  match m st with
  | (st', Ok a) => k a st'
  | (st', Raise e) => (st', Raise e)
  end.

Definition ui_read {A} (f : Gui -> A) : Ui A :=
  fun st => (st, Ok (f (ui_gui st))).

Definition ui_modify (f : Gui -> Gui) : Ui unit :=
  fun st => ({| ui_gui := f (ui_gui st); ui_log := ui_log st |}, Ok tt).

Definition ui_emit (event : UiEvent) : Ui unit :=
  fun st => ({| ui_gui := ui_gui st; ui_log := ui_log st ++ [event] |}, Ok tt).

(** A call into the outside that returns or raises what [outcome] holds. *)
Definition ui_call {A} (outcome : result A) : Ui A :=
  fun st => (st, outcome).

(** [try: body except (psutil.NoSuchProcess, psutil.AccessDenied) as e:
    handler(e)] *)
Definition try_except_psutil {A} (body : Ui A) (handler : exn -> Ui A) : Ui A :=
  fun st =>
    match body st with
    | (st', Raise NoSuchProcess) => handler NoSuchProcess st'
    | (st', Raise AccessDenied) => handler AccessDenied st'
    | other => other
    end.

(** [Gtk.ResponseType], as far as [dialog.run()] can answer. *)
Inductive ResponseType : Type :=
  | RESPONSE_OK
  | RESPONSE_CANCEL
  | RESPONSE_DELETE_EVENT.

(** One call of [update_ui] posted with [GLib.idle_add], with the CPU count
    read during the call. *)
Record IdleCall : Type := mkIdleCall {
  call_cpu_count : option Z;
  call_snapshot : Snapshot
}.

Definition run_idle_call (self : Gui) (call : IdleCall) : Gui :=
  update_ui (call_cpu_count call) (snap_processes (call_snapshot call))
            (snap_services (call_snapshot call)) (snap_performance (call_snapshot call))
            self.

Definition run_idle_calls (calls : list IdleCall) (self : Gui) : Gui :=
  fold_left run_idle_call calls self.

(** [dialog.run()] blocks in a main loop of its own: the dialog is modal, so
    no click or scroll reaches the window, but the idle calls that come due
    while it is open ([pending]) run, in order. *)
Definition dialog_run (pending : list IdleCall) : Ui unit :=
  ui_modify (run_idle_calls pending).

Definition confirm_text (process_name : string) (pid : Z) : string :=
  "Are you sure you want to end '" +:+ process_name +:+ "' (PID: "
    +:+ Py.str_int pid +:+ ")?".

(** [while_confirm] and [response] are what happens while the confirmation
    dialog runs and how it is answered; [terminate pid] is the outcome of
    [psutil.Process(pid)] followed by [process.terminate()]; [while_error]
    is what happens while the error dialog runs. *)
Definition on_end_process (while_confirm : list IdleCall) (response : ResponseType)
    (terminate : Z -> result unit) (while_error : list IdleCall) : Ui unit :=
  treeiter ← ui_read (fun self => get_selected (treeview self));
  match treeiter with
  | Some row =>
      let pid := proc_pid row in
      let process_name := proc_name row in
      _ ← ui_emit (RunConfirmDialog (confirm_text process_name pid));
      _ ← dialog_run while_confirm;
      _ ← match response with
          | RESPONSE_OK =>
              try_except_psutil
                (_ ← ui_emit (Terminate pid);
                 _ ← ui_call (terminate pid);
                 ui_modify (status_bar_push ("Process " +:+ process_name +:+ " terminated")))
                (fun e =>
                   _ ← ui_emit (RunErrorDialog e);
                   _ ← dialog_run while_error;
                   ui_emit DestroyErrorDialog)
          | _ => mret tt
          end;
      ui_emit DestroyConfirmDialog
  | None => mret tt
  end.

Definition on_refresh (self : Gui) : Gui := status_bar_push "Refreshing..." self.

(** ** The presentation thread: [show] *)

(** What [Gtk.main()] delivers to the program: an idle call posted by the
    sampler, a click on one of the two wired buttons, a move of one of the
    scroll bars, or a click on an existing row of one of the lists. *)
Inductive UiAction : Type :=
  | IdleUpdate (call : IdleCall)
  | ClickEndProcess (while_confirm : list IdleCall) (response : ResponseType)
                    (terminate : Z -> result unit) (while_error : list IdleCall)
  | ClickRefresh
  | ScrollProcesses (value : float)
  | ScrollServices (value : float)
  | SelectProcessRow (i : nat)
  | SelectServiceRow (i : nat).

(** The toolkit selects the row under the pointer, which exists. *)
Definition select_row {A} (i : nat) (view : TreeView A) : TreeView A :=
  if (i <? length (rows view))%nat then select_iter view i else view.

Definition handle (action : UiAction) : Ui unit :=
  match action with
  | IdleUpdate call => ui_modify (fun self => run_idle_call self call)
  | ClickEndProcess while_confirm response terminate while_error =>
      on_end_process while_confirm response terminate while_error
  | ClickRefresh => ui_modify on_refresh
  | ScrollProcesses value => ui_modify (processes_set_value value)
  | ScrollServices value => ui_modify (services_set_value value)
  | SelectProcessRow i => ui_modify (with_treeview (select_row i))
  | SelectServiceRow i => ui_modify (with_services_treeview (select_row i))
  end.

(** The main loop runs one handler at a time, each to its end; an exception
    that leaves a handler is reported and the loop goes on. *)
Fixpoint main_loop (actions : list UiAction) (st : UiState) : UiState :=
  match actions with
  | [] => st
  | action :: rest => main_loop rest (fst (handle action st))
  end.

(** The snapshots the sampler handed to [GLib.idle_add], in order. *)
Definition dispatched (trace : list Event) : list Snapshot :=
  omap (fun event => match event with IdleAdd snapshot => Some snapshot | _ => None end)
       trace.

(** * Vocabulary of the statements *)

(** Every character of [s] is whitespace. *)
Fixpoint all_space (s : string) : bool :=
  match s with
  | "" => true
  | String c s' => Py.isspace c && all_space s'
  end.

(** What one line adds to [services]. *)
Definition line_records (line : string) : list ServiceRow :=
  match Py.split line with
  | name :: _ :: _ :: status :: _ => [mkService name status "System Service" "N/A"]
  | _ => []
  end.

(** The rows of the reads that succeeded, in order. *)
Definition rows_read (process_iter : list ProcRead) : list ProcRow :=
  omap (fun proc => match proc with Info row => Some row | _ => None end) process_iter.

(** The identity of the selected rows and the saved scroll offsets: what
    [update_ui] reads of the state before the call. *)
Record ViewState : Type := mkViewState {
  selected_pid : option Z;
  selected_service : option string;
  processes_scroll_offset : float;
  services_scroll_offset : float
}.

(** The view state held by [self]. *)
Definition view_state (self : Gui) : ViewState :=
  {| selected_pid := proc_pid <$> get_selected (treeview self);
     selected_service := svc_name <$> get_selected (services_treeview self);
     processes_scroll_offset := processes_scroll_pos self;
     services_scroll_offset := services_scroll_pos self |}.

(** What a call of [update_ui] leaves to be seen: the rows and selection of
    both lists, both scroll offsets as set and as saved, and the text on the
    status bar. *)
Definition rendered (self : Gui)
  : TreeView ProcRow * TreeView ServiceRow * Adjustment * Adjustment * ViewState
    * option string :=
  (treeview self, services_treeview self, processes_scrolled self,
   services_scrolled self, view_state self, head (status_bar self)).

(** The events of one iteration that dispatches [snapshot]. *)
Definition iteration_events (snapshot : Snapshot) : list Event :=
  [CaptureProcesses; CaptureServices; CapturePerformance; IdleAdd snapshot;
   Sleep update_interval].

(** * Sample data *)

Definition nl : string := String Py.newline "".

(** A listing as [systemctl list-units] prints it: a header, then six
    lines of which the third names a unit and nothing else. *)
Definition sample_listing : string :=
  "  UNIT LOAD ACTIVE SUB DESCRIPTION" +:+ nl +:+
  "  acpid.service loaded active running ACPI event daemon" +:+ nl +:+
  "  apport.service loaded active exited automatic crash report generation" +:+ nl +:+
  "  broken.service loaded" +:+ nl +:+
  "  cron.service loaded active running Regular background program processing daemon" +:+ nl +:+
  "  dbus.service loaded active running D-Bus System Message Bus" +:+ nl +:+
  "  gdm.service loaded active running GNOME Display Manager" +:+ nl.

Definition systemd_row : ProcRow := mkProc "systemd" 1 "sleeping" "root" 0 0.125.
Definition bash_row : ProcRow := mkProc "bash" 4242 "running" "thabiso" 1.5 0.25.

Definition kernel_row : ProcRow := mkProc "kernel_task" 0 "running" "root" 2.5 0.5.

Definition bash_twin_row : ProcRow := mkProc "bash (deleted)" 4242 "zombie" "thabiso" 0 0.

Definition idle_tab : PerformanceTab :=
  mkPerformanceTab "" 0 "" "" 0 "" "" 0 "" "".

Definition sample_performance : Performance :=
  mkPerformance 55.5 50 8 16 25 100 400 "2026-01-05 08:30:00".

(** A state in which the row of PID 0 is selected. *)
Definition gui_kernel_selected : Gui :=
  {| treeview := {| rows := [kernel_row; systemd_row]; selected := Some 0%nat |};
     services_treeview := {| rows := fallback_services; selected := None |};
     processes_scroll_pos := 120;
     services_scroll_pos := 0;
     processes_scrolled := mkAdjustment 120;
     services_scrolled := mkAdjustment 0;
     performance_tab := idle_tab;
     status_bar := [] |}.

(** A state in which the row of PID 4242 and the nginx service are selected. *)
Definition gui_bash_selected : Gui :=
  {| treeview := {| rows := [systemd_row; bash_row]; selected := Some 1%nat |};
     services_treeview := {| rows := fallback_services; selected := Some 2%nat |};
     processes_scroll_pos := 64;
     services_scroll_pos := 8;
     processes_scrolled := mkAdjustment 64;
     services_scrolled := mkAdjustment 8;
     performance_tab := idle_tab;
     status_bar := ["Refreshing..."] |}.

(** Another state with the view state of [gui_bash_selected]: other rows in
    another order, other adjustments, labels and status history. *)
Definition gui_bash_selected_later : Gui :=
  {| treeview := {| rows := [bash_row; kernel_row; systemd_row]; selected := Some 0%nat |};
     services_treeview :=
       {| rows := [mkService "nginx.service" "failed" "System Service" "N/A"];
          selected := Some 0%nat |};
     processes_scroll_pos := 64;
     services_scroll_pos := 8;
     processes_scrolled := mkAdjustment 0;
     services_scrolled := mkAdjustment 0;
     performance_tab :=
       mkPerformanceTab "Total CPU Usage: 3.0%" 0.03125 "3.0%" "" 0 "" "" 0 "" "";
     status_bar := ["Process bash terminated"; "Refreshing..."] |}.

(** An OS that always answers the same: two processes of which one cannot
    be read, and no [systemctl] binary. *)
Definition sample_os (i : nat) : OsAnswer :=
  {| ans_process_iter := [Info systemd_row; RaisesAccessDenied; Info bash_row];
     ans_systemctl := Raise FileNotFoundError;
     ans_stats :=
       mkOsStats 55.5 (mkSvmem 17179869184 8589934592 50)
                 (mkSdiskusage 429496729600 107374182400 25) 1767601800 |}.

Definition sample_strftime (t : float) : string := "2026-01-05 08:30:00".

Definition sample_snapshot : Snapshot :=
  mkSnapshot [systemd_row; bash_row] fallback_services sample_performance.

(** * Further vocabulary *)

(** No character of [s] is whitespace. *)
Fixpoint no_space (s : string) : bool :=
  match s with
  | "" => true
  | String c s' => negb (Py.isspace c) && no_space s'
  end.

(** No character of [s] is a newline. *)
Fixpoint no_newline (s : string) : bool :=
  match s with
  | "" => true
  | String c s' => negb (Ascii.eqb c Py.newline) && no_newline s'
  end.

(** A name or status as [get_services] reports it: not empty, no whitespace. *)
Definition word (s : string) : Prop := s <> "" /\ no_space s = true.

(** The exceptions the loop of [get_processes] swallowed, in order. *)
Definition failed_reads (process_iter : list ProcRead) : list exn :=
  omap (fun proc => match proc with
                    | Info _ => None
                    | RaisesNoSuchProcess => Some NoSuchProcess
                    | RaisesAccessDenied => Some AccessDenied
                    end) process_iter.

(** The selected index, if any, is the index of a row. *)
Definition valid_selection {A} (view : TreeView A) : Prop :=
  forall i, selected view = Some i -> (i < length (rows view))%nat.

Definition valid_gui (self : Gui) : Prop :=
  valid_selection (treeview self) /\ valid_selection (services_treeview self).

(** The terminate requests among [events], in order. *)
Definition terminated (events : list UiEvent) : list Z :=
  omap (fun event => match event with Terminate pid => Some pid | _ => None end) events.

(** The actions that push a message whatever the state. *)
Definition pushes (action : UiAction) : bool :=
  match action with
  | IdleUpdate _ => true
  | ClickRefresh => true
  | _ => false
  end.

(** The [update_ui] calls that run inside the handler of [action] started on
    the widgets [self]: the idle call itself, or the calls that come due
    while a dialog of [on_end_process] is open (the confirmation dialog when
    a row is selected, and the error dialog when a confirmed request raises
    one of the two caught errors). *)
Definition update_calls (action : UiAction) (self : Gui) : nat :=
  match action with
  | IdleUpdate _ => 1
  | ClickEndProcess while_confirm response terminate while_error =>
      match get_selected (treeview self) with
      | Some row =>
          length while_confirm +
          match response with
          | RESPONSE_OK =>
              match terminate (proc_pid row) with
              | Raise NoSuchProcess => length while_error
              | Raise AccessDenied => length while_error
              | _ => 0
              end
          | _ => 0
          end
      | None => 0
      end
  | _ => 0
  end.

(** The messages the handler of [action] pushes itself: one for a Refresh
    click, one for a confirmed terminate request that is granted. *)
Definition own_messages (action : UiAction) (self : Gui) : nat :=
  match action with
  | ClickRefresh => 1
  | ClickEndProcess _ RESPONSE_OK terminate _ =>
      match get_selected (treeview self) with
      | Some row => match terminate (proc_pid row) with Ok _ => 1 | Raise _ => 0 end
      | None => 0
      end
  | _ => 0
  end.

(** The sum of [count] over a run of the main loop, each action counted on
    the widgets its handler starts on. *)
Fixpoint over_run (count : UiAction -> Gui -> nat) (actions : list UiAction)
    (st : UiState) : nat :=
  match actions with
  | [] => 0
  | action :: rest =>
      count action (ui_gui st) + over_run count rest (fst (handle action st))
  end.

(** The value of the last move of the processes scroll bar among [actions],
    [value] when there is none; likewise for the services scroll bar. *)
Definition last_processes_scroll (actions : list UiAction) (value : float) : float :=
  fold_left (fun v action => match action with ScrollProcesses x => x | _ => v end)
            actions value.

Definition last_services_scroll (actions : list UiAction) (value : float) : float :=
  fold_left (fun v action => match action with ScrollServices x => x | _ => v end)
            actions value.

(** The PIDs of the snapshots of [calls]. *)
Definition call_pids (calls : list IdleCall) : list Z :=
  concat (map (fun call => map proc_pid (snap_processes (call_snapshot call))) calls).

(** The PIDs of the snapshots that [actions] deliver, those delivered while
    a dialog is open included. *)
Definition delivered_pids (actions : list UiAction) : list Z :=
  concat (map (fun action =>
                 match action with
                 | IdleUpdate call => call_pids [call]
                 | ClickEndProcess while_confirm _ _ while_error =>
                     call_pids (while_confirm ++ while_error)
                 | _ => []
                 end) actions).

Definition loads (outcome : LoadOutcome) : bool :=
  match outcome with Loaded => true | LoadRaises _ => false end.

(** The first candidate that exists and loads, with its index, if any. *)
Definition first_loadable (path_exists : string -> bool)
    (set_icon_from_file : string -> LoadOutcome) (paths : list string)
  : option (nat * string) :=
  list_find (fun path => path_exists path && loads (set_icon_from_file path) = true) paths.

(** * Further sample data *)

(** Five unit lines. *)
Definition sample_body : string :=
  "acpid.service loaded active running ACPI event daemon" +:+ nl +:+
  "apport.service loaded active exited automatic crash report generation" +:+ nl +:+
  "cron.service loaded active running Regular background program processing daemon" +:+ nl +:+
  "dbus.service loaded active running D-Bus System Message Bus" +:+ nl +:+
  "gdm.service loaded active running GNOME Display Manager".

Definition nginx_failed : ServiceRow :=
  mkService "nginx.service" "failed" "System Service" "N/A".

(** A process manager that refuses every request. *)
Definition terminate_denied (pid : Z) : result unit := Raise AccessDenied.

(** A process manager that grants every request but refuses PID 0 with an
    error of its own. *)
Definition terminate_granted (pid : Z) : result unit :=
  if pid =? 0 then Raise (OtherError "preventing sending signal to process with PID 0")
  else Ok tt.

(** The lines [set_window_icon] prints for [paths]: one for each candidate
    that exists and does not load. *)
Definition load_messages (path_exists : string -> bool)
    (set_icon_from_file : string -> LoadOutcome) (paths : list string) : list string :=
  omap (fun path =>
          if path_exists path then
            match set_icon_from_file path with
            | Loaded => None
            | LoadRaises e =>
                Some ("Could not load icon from " +:+ path +:+ ": " +:+ e)
            end
          else None) paths.

(** A home directory, with one broken icon file installed for the user and
    a good one in the shared pixmaps. *)
Definition sample_expanduser (path : string) : string :=
  match path with
  | String "~" rest => "/home/thabiso" +:+ rest
  | _ => path
  end.

Definition sample_path_exists (path : string) : bool :=
  String.eqb path "/home/thabiso/.local/share/icons/hicolor/256x256/apps/modern-task-manager.png"
  || String.eqb path "/usr/share/pixmaps/modern-task-manager.png".

Definition sample_set_icon_from_file (path : string) : LoadOutcome :=
  if String.eqb path "/usr/share/pixmaps/modern-task-manager.png" then Loaded
  else LoadRaises "Unrecognized image file format".

(** A later sample in which bash has a twin and systemd comes last. *)
Definition later_call : IdleCall :=
  mkIdleCall (Some 8)
    (mkSnapshot [bash_twin_row; bash_row; systemd_row] [nginx_failed] sample_performance).

(** A sample in which bash is gone. *)
Definition bash_gone_call : IdleCall :=
  mkIdleCall None (mkSnapshot [systemd_row] [nginx_failed] sample_performance).

Definition sample_actions : list UiAction :=
  [ IdleUpdate (mkIdleCall (Some 8) sample_snapshot);
    SelectProcessRow 1;
    ScrollProcesses 48;
    ClickRefresh;
    IdleUpdate later_call;
    ClickEndProcess [bash_gone_call] RESPONSE_OK terminate_granted [];
    SelectServiceRow 7 ].

(** * Proof automation *)

(** Both directions between "the loop selected index [i]" and "[i] is the
    first row that carries the identity", for an equality test [eqb]. *)
Ltac first_row_with eqb_eq eqb_neq :=
  split; intros (row & Hi & Hrow & Hbefore); exists row;
  (split; [exact Hi|]); (split; [now apply eqb_eq|]);
  intros j row' Hj Hlt; apply eqb_neq; eauto.

(** * Properties *)

(** ** Whitespace handling *)

Lemma lstrip_head c r s : Py.lstrip s = String c r -> Py.isspace c = false.
Proof.
  induction s as [|a s IH]; simpl; [discriminate|].
  destruct (Py.isspace a) eqn:Ha; [exact IH|].
  intros [= <- _]. exact Ha.
Qed.

Lemma lstrip_empty s : Py.lstrip s = "" -> all_space s = true.
Proof.
  induction s as [|a s IH]; simpl; [reflexivity|].
  destruct (Py.isspace a); [exact IH | discriminate].
Qed.

Lemma rstrip_keeps_head c s : Py.isspace c = false -> Py.rstrip (String c s) <> "".
Proof.
  intros Hc. simpl. rewrite Hc. destruct (Py.rstrip s); discriminate.
Qed.

Lemma strip_empty s : Py.strip s = "" -> all_space s = true.
Proof.
  unfold Py.strip. intros H. apply lstrip_empty.
  destruct (Py.lstrip s) as [|c r] eqn:E; [reflexivity|].
  exfalso. apply (rstrip_keeps_head c r); [|exact H].
  exact (lstrip_head _ _ _ E).
Qed.

Lemma split_all_space s : all_space s = true -> Py.split s = [].
Proof.
  unfold Py.split. induction s as [|a s IH]; simpl; [reflexivity|].
  intros [Ha Hs]%andb_prop. rewrite Ha. exact (IH Hs).
Qed.

Lemma strip_falsy_no_fields line :
  Py.truthy_str (Py.strip line) = false -> Py.split line = [].
Proof.
  intros H. apply split_all_space, strip_empty.
  destruct (Py.strip line); [reflexivity | discriminate].
Qed.

(** ** The service loop *)

Lemma service_step_spec services line :
  service_step services line = Ok (services ++ line_records line).
Proof.
  unfold service_step, line_records.
  destruct (Py.truthy_str (Py.strip line)) eqn:Hs.
  - destruct (Py.split line) as [|p0 [|p1 [|p2 [|p3 ps]]]]; simpl;
      rewrite ?app_nil_r; reflexivity.
  - rewrite (strip_falsy_no_fields _ Hs). simpl. now rewrite app_nil_r.
Qed.

Lemma for_each_service_step lines services :
  for_each service_step lines services
  = Ok (services ++ concat (map line_records lines)).
Proof.
  revert services. induction lines as [|line lines IH]; intros services; simpl.
  - now rewrite app_nil_r.
  - rewrite service_step_spec. simpl. rewrite IH. now rewrite <- app_assoc.
Qed.

Lemma get_services_completed cp :
  get_services (Ok cp)
  = Ok (concat (map line_records
                  (take 5 (drop 1 (Py.split_on Py.newline (stdout cp)))))).
Proof.
  unfold get_services. simpl. unfold Py.slice.
  rewrite for_each_service_step. reflexivity.
Qed.

Lemma line_records_short line :
  (length (Py.split line) < 4)%nat -> line_records line = [].
Proof.
  unfold line_records.
  destruct (Py.split line) as [|p0 [|p1 [|p2 [|p3 ps]]]]; simpl; intros H;
    try reflexivity; lia.
Qed.

Lemma line_records_full line :
  (4 <= length (Py.split line))%nat ->
  exists name status,
    Py.split line !! 0%nat = Some name /\ Py.split line !! 3%nat = Some status /\
    line_records line = [mkService name status "System Service" "N/A"].
Proof.
  unfold line_records.
  destruct (Py.split line) as [|p0 [|p1 [|p2 [|p3 ps]]]]; simpl; intros H;
    try lia.
  exists p0, p3. repeat split; reflexivity.
Qed.

(** ** Service source *)

Example get_services_sample :
  get_services (Ok (mkCompleted 0 sample_listing ""))
  = Ok [ mkService "acpid.service" "running" "System Service" "N/A";
         mkService "apport.service" "exited" "System Service" "N/A";
         mkService "cron.service" "running" "System Service" "N/A";
         mkService "dbus.service" "running" "System Service" "N/A" ].
Proof. vm_compute. reflexivity. Qed.

Lemma get_services_total run : exists services, get_services run = Ok services.
Proof.
  destruct run as [cp|e].
  - rewrite get_services_completed. eauto.
  - exists fallback_services. reflexivity.
Qed.

(** C1, as stated, fails: a query that runs and exits with status 1 without
    printing anything yields the empty list, not the placeholder set; so does
    a query whose output is no unit table at all. *)
Lemma get_services_nonzero_exit_is_parsed :
  returncode (mkCompleted 1 "" "Failed to connect to bus") <> 0 /\
  get_services (Ok (mkCompleted 1 "" "Failed to connect to bus")) = Ok [] /\
  get_services (Ok (mkCompleted 1 "" "Failed to connect to bus"))
    <> Ok fallback_services /\
  get_services (Ok (mkCompleted 0 "usage: systemctl [OPTIONS...] COMMAND" "")) = Ok [].
Proof. repeat split; discriminate. Qed.

(** C1, amended: when invoking the query raises, [get_services] returns
    exactly the three placeholder rows ssh.service, cron.service and
    nginx.service, all active; and whatever the query does, [get_services]
    returns a list: no exception reaches the caller. *)
Theorem get_services_fallback_and_no_raise :
  (forall e, get_services (Raise e) = Ok fallback_services) /\
  map (fun s => (svc_name s, svc_status s)) fallback_services
    = [("ssh.service", "active"); ("cron.service", "active");
       ("nginx.service", "active")] /\
  (forall run, exists services, get_services run = Ok services).
Proof.
  split; [reflexivity|]. split; [reflexivity|]. exact get_services_total.
Qed.

(** C4: only the five lines after the header are considered; a considered
    line with fewer than four fields adds nothing, and one with at least
    four fields adds exactly one row, named by field 0 with field 3 as its
    status. *)
Theorem get_services_parses_first_five_lines (cp : CompletedProcess) :
  exists contributions : list (list ServiceRow),
    get_services (Ok cp) = Ok (concat contributions) /\
    Forall2
      (fun line records =>
         ((length (Py.split line) < 4)%nat -> records = []) /\
         ((4 <= length (Py.split line))%nat ->
          exists name status,
            Py.split line !! 0%nat = Some name /\
            Py.split line !! 3%nat = Some status /\
            records = [mkService name status "System Service" "N/A"]))
      (take 5 (drop 1 (Py.split_on Py.newline (stdout cp))))
      contributions.
Proof.
  exists (map line_records (take 5 (drop 1 (Py.split_on Py.newline (stdout cp))))).
  split; [apply get_services_completed|].
  induction (take 5 (drop 1 (Py.split_on Py.newline (stdout cp)))) as [|line ls IH];
    simpl; constructor; [|exact IH].
  split; [apply line_records_short | apply line_records_full].
Qed.

(** C9: every row parsed from the query's output carries the description
    "System Service" and the pid "N/A". *)
Theorem get_services_parsed_rows_constant (cp : CompletedProcess)
    (services : list ServiceRow) :
  get_services (Ok cp) = Ok services ->
  Forall (fun s => svc_description s = "System Service" /\ svc_pid s = "N/A") services.
Proof.
  rewrite get_services_completed. intros [= <-].
  induction (take 5 (drop 1 (Py.split_on Py.newline (stdout cp)))) as [|line ls IH];
    simpl; [constructor|].
  apply Forall_app. split; [|exact IH].
  unfold line_records.
  destruct (Py.split line) as [|p0 [|p1 [|p2 [|p3 ps]]]]; repeat constructor.
Qed.

Lemma get_services_parsed_rows_constant_witness :
  Forall (fun s => svc_description s = "System Service" /\ svc_pid s = "N/A")
    [ mkService "acpid.service" "running" "System Service" "N/A";
      mkService "apport.service" "exited" "System Service" "N/A";
      mkService "cron.service" "running" "System Service" "N/A";
      mkService "dbus.service" "running" "System Service" "N/A" ].
Proof.
  apply (get_services_parsed_rows_constant (mkCompleted 0 sample_listing "")).
  vm_compute. reflexivity.
Defined.

(** ** Process source *)

Lemma fold_process_step process_iter processes :
  fold_left process_step process_iter processes = processes ++ rows_read process_iter.
Proof.
  revert processes.
  induction process_iter as [|proc process_iter IH]; intros processes; simpl.
  - now rewrite app_nil_r.
  - rewrite IH. destruct proc; simpl; [now rewrite <- app_assoc | reflexivity..].
Qed.

Lemma get_processes_rows_read process_iter :
  get_processes process_iter = rows_read process_iter.
Proof. unfold get_processes. now rewrite fold_process_step. Qed.



(** ** Performance source *)

Lemma gigabytes_floor (b : Z) :
  1024 ^ 3 * (b / 1024 ^ 3) <= b < 1024 ^ 3 * (b / 1024 ^ 3 + 1).
Proof.
  pose proof (Z.mul_div_le b (1024 ^ 3) eq_refl).
  pose proof (Z.mul_succ_div_gt b (1024 ^ 3) eq_refl).
  lia.
Qed.

(** C5: each gigabyte figure is the byte count integer-divided by [1024^3],
    that is rounded down: it is the one integer [g] with
    [g * 1024^3 <= b < (g + 1) * 1024^3]; 1.9 GiB used reports as 1. *)
Theorem get_performance_data_truncates (strftime_local : float -> string)
    (os : OsStats) :
  let performance := get_performance_data strftime_local os in
  let memory := os_virtual_memory os in
  let disk := os_disk_usage os in
  let gb := 1024 ^ 3 in
  (memory_used performance = vm_used memory / gb /\
   gb * memory_used performance <= vm_used memory < gb * (memory_used performance + 1)) /\
  (memory_total performance = vm_total memory / gb /\
   gb * memory_total performance <= vm_total memory
     < gb * (memory_total performance + 1)) /\
  (disk_used performance = du_used disk / gb /\
   gb * disk_used performance <= du_used disk < gb * (disk_used performance + 1)) /\
  (disk_total performance = du_total disk / gb /\
   gb * disk_total performance <= du_total disk < gb * (disk_total performance + 1)) /\
  memory_used
    (get_performance_data strftime_local
       (mkOsStats (os_cpu_percent os)
          (mkSvmem (vm_total memory) 2040109465 (vm_percent memory))
          disk (os_boot_time os))) = 1.
Proof.
  cbv zeta. unfold get_performance_data. simpl.
  repeat split; try apply gigabytes_floor.
Qed.

(** ** Reconciler *)

Lemma fold_list_store_append {A} (new_rows : list A) (view : TreeView A) :
  fold_left list_store_append new_rows view
  = {| rows := rows view ++ new_rows; selected := selected view |}.
Proof.
  revert view. induction new_rows as [|row new_rows IH]; intros view; simpl.
  - rewrite app_nil_r. now destruct view.
  - rewrite IH. simpl. now rewrite <- app_assoc.
Qed.

Lemma select_first_match_find {A} (matches : A -> bool) (remaining : list A)
    (i : nat) (view : TreeView A) :
  select_first_match matches remaining i view
  = match list_find (fun row => matches row = true) remaining with
    | Some (k, _) => select_iter view (i + k)
    | None => view
    end.
Proof.
  revert i. induction remaining as [|row rest IH]; intros i; simpl; [reflexivity|].
  destruct (matches row) eqn:Hm.
  - rewrite decide_True by reflexivity. simpl. now rewrite Nat.add_0_r.
  - rewrite decide_False by discriminate. rewrite IH.
    destruct (list_find _ rest) as [[k r]|]; simpl; [|reflexivity].
    now rewrite Nat.add_succ_r.
Qed.

Lemma select_first_match_rows {A} (matches : A -> bool) remaining i (view : TreeView A) :
  rows (select_first_match matches remaining i view) = rows view.
Proof.
  rewrite select_first_match_find.
  now destruct (list_find _ remaining) as [[k r]|].
Qed.

(** The state of the two lists after [update_ui]. *)
Lemma update_ui_treeview cpu_count processes services performance self :
  treeview (update_ui cpu_count processes services performance self)
  = restore_process_selection (selected_pid (view_state self))
      {| rows := processes; selected := None |}.
Proof.
  unfold update_ui. cbn. now rewrite fold_list_store_append.
Qed.

Lemma update_ui_services_treeview cpu_count processes services performance self :
  services_treeview (update_ui cpu_count processes services performance self)
  = restore_service_selection (selected_service (view_state self))
      {| rows := services; selected := None |}.
Proof.
  unfold update_ui. cbn. now rewrite fold_list_store_append.
Qed.

Lemma update_ui_rows cpu_count processes services performance self :
  rows (treeview (update_ui cpu_count processes services performance self)) = processes /\
  rows (services_treeview (update_ui cpu_count processes services performance self))
    = services.
Proof.
  rewrite update_ui_treeview, update_ui_services_treeview.
  unfold restore_process_selection, restore_service_selection. split.
  - destruct (selected_pid _) as [pid|]; [|reflexivity].
    destruct (Py.truthy_int pid); [|reflexivity]. apply select_first_match_rows.
  - destruct (selected_service _) as [name|]; [|reflexivity].
    destruct (Py.truthy_str name); [|reflexivity]. apply select_first_match_rows.
Qed.

(** The loop with [break] selects the first matching row, or none. *)
Lemma select_first_match_selected {A} (matches : A -> bool) (new_rows : list A) (i : nat) :
  selected (select_first_match matches new_rows 0 {| rows := new_rows; selected := None |})
    = Some i
  <-> exists row, new_rows !! i = Some row /\ matches row = true /\
        forall j row', new_rows !! j = Some row' -> (j < i)%nat -> matches row' = false.
Proof.
  rewrite select_first_match_find.
  destruct (list_find _ new_rows) as [[k r]|] eqn:E; simpl.
  - apply list_find_Some in E as (Hk & Hr & Hfirst). split.
    + intros [= <-]. exists r. repeat split; [exact Hk | exact Hr |].
      intros j row' Hj Hlt. apply not_true_is_false. eauto.
    + intros (row & Hi & Hrow & Hbefore). f_equal.
      destruct (Nat.lt_trichotomy k i) as [Hlt|[->|Hgt]]; [|reflexivity|].
      * rewrite (Hbefore k r Hk Hlt) in Hr. discriminate.
      * exfalso. apply (Hfirst i row Hi Hgt Hrow).
  - split; [discriminate|].
    intros (row & Hi & Hrow & _). exfalso.
    apply list_find_None in E. rewrite Forall_forall in E.
    apply (E row); [|exact Hrow]. eapply list_elem_of_lookup_2. exact Hi.
Qed.

Lemma select_first_match_none {A} (matches : A -> bool) (new_rows : list A) :
  (forall row, row ∈ new_rows -> matches row = false) ->
  selected (select_first_match matches new_rows 0 {| rows := new_rows; selected := None |})
    = None.
Proof.
  intros H. rewrite select_first_match_find.
  destruct (list_find _ new_rows) as [[k r]|] eqn:E; [|reflexivity].
  apply list_find_Some in E as (Hk & Hr & _).
  rewrite (H r) in Hr; [discriminate|]. eapply list_elem_of_lookup_2. exact Hk.
Qed.

(** Three rows, PID 20 selected; PID 20 has exited in the next snapshot. *)
Example update_ui_selection_lost_when_process_exits :
  let row pid name := mkProc name pid "sleeping" "root" 0 0 in
  let before :=
    mkGui {| rows := [row 10 "a"; row 20 "b"; row 30 "c"]; selected := Some 1%nat |}
          {| rows := []; selected := None |} 0 0 (mkAdjustment 0) (mkAdjustment 0)
          idle_tab [] in
  let after := update_ui (Some 8) [row 10 "a"; row 30 "c"] [] sample_performance before in
  selected (treeview after) = None /\ length (rows (treeview after)) = 2%nat.
Proof. vm_compute. split; reflexivity. Qed.

(** C3 at the failing input: the row of PID 0 is selected, the new snapshot
    has a row of PID 0, and after [update_ui] nothing is selected. *)
Theorem update_ui_loses_selected_pid_zero :
  selected_pid (view_state gui_kernel_selected) = Some 0 /\
  [systemd_row; kernel_row] !! 1%nat = Some kernel_row /\
  selected
    (treeview
       (update_ui (Some 8) [systemd_row; kernel_row] fallback_services
          sample_performance gui_kernel_selected)) = None.
Proof. vm_compute. repeat split. Qed.

Lemma truthy_int_nonzero pid : pid <> 0 -> Py.truthy_int pid = true.
Proof. intros H. unfold Py.truthy_int. now apply negb_true_iff, Z.eqb_neq. Qed.

Lemma truthy_str_nonempty name : name <> "" -> Py.truthy_str name = true.
Proof. destruct name; [congruence | reflexivity]. Qed.

(** C10: a selected row whose PID is 0, or whose service name is empty, is
    never selected again, whatever the new rows are; any other captured PID
    or name selects the first row that carries it, in store order, and
    nothing when no row does. *)
Theorem update_ui_restores_truthy_first_match (cpu_count : option Z)
    (processes : list ProcRow) (services : list ServiceRow)
    (performance : Performance) (self : Gui) :
  let self' := update_ui cpu_count processes services performance self in
  (selected_pid (view_state self) = Some 0 -> selected (treeview self') = None) /\
  (selected_service (view_state self) = Some "" ->
   selected (services_treeview self') = None) /\
  (forall pid i, selected_pid (view_state self) = Some pid -> pid <> 0 ->
     (selected (treeview self') = Some i <->
      exists row, processes !! i = Some row /\ proc_pid row = pid /\
        forall j row', processes !! j = Some row' -> (j < i)%nat ->
                       proc_pid row' <> pid)) /\
  (forall name i, selected_service (view_state self) = Some name -> name <> "" ->
     (selected (services_treeview self') = Some i <->
      exists row, services !! i = Some row /\ svc_name row = name /\
        forall j row', services !! j = Some row' -> (j < i)%nat ->
                       svc_name row' <> name)).
Proof.
  cbv zeta. rewrite update_ui_treeview, update_ui_services_treeview.
  split; [intros ->; reflexivity|]. split; [intros ->; reflexivity|]. split.
  - intros pid i -> Hpid. unfold restore_process_selection.
    rewrite (truthy_int_nonzero _ Hpid), select_first_match_selected.
    first_row_with Z.eqb_eq Z.eqb_neq.
  - intros name i -> Hname. unfold restore_service_selection.
    rewrite (truthy_str_nonempty _ Hname), select_first_match_selected.
    first_row_with String.eqb_eq String.eqb_neq.
Qed.

Lemma update_ui_restores_truthy_first_match_witness :
  selected
    (treeview
       (update_ui (Some 8) [systemd_row; kernel_row] fallback_services
          sample_performance gui_kernel_selected)) = None /\
  selected
    (treeview
       (update_ui (Some 8) [kernel_row; bash_twin_row; bash_row; systemd_row]
          fallback_services sample_performance gui_bash_selected)) = Some 1%nat.
Proof.
  split.
  - apply (proj1 (update_ui_restores_truthy_first_match (Some 8)
                    [systemd_row; kernel_row] fallback_services
                    sample_performance gui_kernel_selected)).
    reflexivity.
  - apply (proj1 (proj2 (proj2
             (update_ui_restores_truthy_first_match (Some 8)
                [kernel_row; bash_twin_row; bash_row; systemd_row]
                fallback_services sample_performance gui_bash_selected)))
             4242 1%nat).
    + reflexivity.
    + discriminate.
    + exists bash_twin_row. repeat split.
      intros j row' Hj Hlt. destruct j as [|[|j]]; [|lia..].
      injection Hj as <-. discriminate.
Defined.

Lemma update_ui_scroll cpu_count processes services performance self :
  processes_scrolled (update_ui cpu_count processes services performance self)
    = mkAdjustment (processes_scroll_pos self) /\
  services_scrolled (update_ui cpu_count processes services performance self)
    = mkAdjustment (services_scroll_pos self) /\
  processes_scroll_pos (update_ui cpu_count processes services performance self)
    = processes_scroll_pos self /\
  services_scroll_pos (update_ui cpu_count processes services performance self)
    = services_scroll_pos self.
Proof. repeat split. Qed.

Lemma update_ui_status_bar cpu_count processes services performance self :
  status_bar (update_ui cpu_count processes services performance self)
  = status_text processes performance :: status_bar self.
Proof. reflexivity. Qed.

(** C8: after [update_ui] both adjustments hold the offsets saved before the
    call, unchanged, whatever the new rows are; the saved offsets themselves
    are unchanged too. *)
Theorem update_ui_restores_scroll_verbatim (cpu_count : option Z)
    (processes : list ProcRow) (services : list ServiceRow)
    (performance : Performance) (self : Gui) :
  let self' := update_ui cpu_count processes services performance self in
  get_value (processes_scrolled self') = processes_scroll_pos self /\
  get_value (services_scrolled self') = services_scroll_pos self /\
  processes_scroll_pos self' = processes_scroll_pos self /\
  services_scroll_pos self' = services_scroll_pos self.
Proof.
  cbv zeta.
  destruct (update_ui_scroll cpu_count processes services performance self)
    as (-> & -> & -> & ->).
  repeat split.
Qed.

Example update_ui_scroll_beyond_new_rows :
  get_value
    (processes_scrolled
       (update_ui (Some 8) [] [] sample_performance gui_kernel_selected)) = 120%float.
Proof. reflexivity. Qed.

Lemma restore_process_selection_stable selected_pid processes :
  restore_process_selection
    (proc_pid <$> get_selected
       (restore_process_selection selected_pid {| rows := processes; selected := None |}))
    {| rows := processes; selected := None |}
  = restore_process_selection selected_pid {| rows := processes; selected := None |}.
Proof.
  destruct selected_pid as [pid|]; [|reflexivity]. simpl.
  destruct (Py.truthy_int pid) eqn:Ht; [|reflexivity].
  rewrite select_first_match_find.
  destruct (list_find _ processes) as [[k r]|] eqn:E; [|reflexivity].
  pose proof E as (Hk & Hr & _)%list_find_Some.
  unfold get_selected. simpl. rewrite Hk. simpl.
  apply Z.eqb_eq in Hr. rewrite Hr, Ht.
  rewrite select_first_match_find, E. reflexivity.
Qed.

Lemma restore_service_selection_stable selected_service services :
  restore_service_selection
    (svc_name <$> get_selected
       (restore_service_selection selected_service {| rows := services; selected := None |}))
    {| rows := services; selected := None |}
  = restore_service_selection selected_service {| rows := services; selected := None |}.
Proof.
  destruct selected_service as [name|]; [|reflexivity]. simpl.
  destruct (Py.truthy_str name) eqn:Ht; [|reflexivity].
  rewrite select_first_match_find.
  destruct (list_find _ services) as [[k r]|] eqn:E; [|reflexivity].
  pose proof E as (Hk & Hr & _)%list_find_Some.
  unfold get_selected. simpl. rewrite Hk. simpl.
  apply String.eqb_eq in Hr. rewrite Hr, Ht.
  rewrite select_first_match_find, E. reflexivity.
Qed.

Lemma view_state_update_ui cpu_count processes services performance self :
  view_state (update_ui cpu_count processes services performance self)
  = {| selected_pid :=
         proc_pid <$> get_selected
           (restore_process_selection (selected_pid (view_state self))
              {| rows := processes; selected := None |});
       selected_service :=
         svc_name <$> get_selected
           (restore_service_selection (selected_service (view_state self))
              {| rows := services; selected := None |});
       processes_scroll_offset := processes_scroll_offset (view_state self);
       services_scroll_offset := services_scroll_offset (view_state self) |}.
Proof.
  unfold view_state at 1.
  rewrite update_ui_treeview, update_ui_services_treeview.
  destruct (update_ui_scroll cpu_count processes services performance self)
    as (_ & _ & -> & ->).
  reflexivity.
Qed.

Lemma rendered_update_ui cpu_count processes services performance self :
  rendered (update_ui cpu_count processes services performance self)
  = (restore_process_selection (selected_pid (view_state self))
       {| rows := processes; selected := None |},
     restore_service_selection (selected_service (view_state self))
       {| rows := services; selected := None |},
     mkAdjustment (processes_scroll_offset (view_state self)),
     mkAdjustment (services_scroll_offset (view_state self)),
     view_state (update_ui cpu_count processes services performance self),
     Some (status_text processes performance)).
Proof.
  unfold rendered.
  rewrite update_ui_treeview, update_ui_services_treeview, update_ui_status_bar.
  destruct (update_ui_scroll cpu_count processes services performance self)
    as (-> & -> & _ & _).
  reflexivity.
Qed.

(** C6: what [update_ui] renders depends on the state before the call only
    through the view state, and not on the CPU count read during the call:
    two calls with the same view state and the same snapshot render the same
    rows, selection, scroll offsets and status text; and a second call on
    the state left by the first, with the same snapshot, renders the same
    again. *)
Theorem update_ui_deterministic (cpu_count1 cpu_count2 : option Z)
    (processes : list ProcRow) (services : list ServiceRow)
    (performance : Performance) (self1 self2 : Gui) :
  view_state self1 = view_state self2 ->
  rendered (update_ui cpu_count1 processes services performance self1)
    = rendered (update_ui cpu_count2 processes services performance self2) /\
  rendered (update_ui cpu_count2 processes services performance
              (update_ui cpu_count1 processes services performance self1))
    = rendered (update_ui cpu_count1 processes services performance self1).
Proof.
  intros Hview. split.
  - rewrite !rendered_update_ui, !view_state_update_ui, Hview. reflexivity.
  - rewrite (rendered_update_ui cpu_count2), (rendered_update_ui cpu_count1).
    rewrite (view_state_update_ui cpu_count2).
    rewrite !(view_state_update_ui cpu_count1). simpl.
    rewrite restore_process_selection_stable, restore_service_selection_stable.
    reflexivity.
Qed.

Lemma update_ui_deterministic_witness :
  rendered (update_ui (Some 8) [kernel_row; bash_twin_row; bash_row]
              fallback_services sample_performance gui_bash_selected)
    = rendered (update_ui None [kernel_row; bash_twin_row; bash_row]
                  fallback_services sample_performance gui_bash_selected_later) /\
  rendered (update_ui None [kernel_row; bash_twin_row; bash_row]
              fallback_services sample_performance
              (update_ui (Some 8) [kernel_row; bash_twin_row; bash_row]
                 fallback_services sample_performance gui_bash_selected))
    = rendered (update_ui (Some 8) [kernel_row; bash_twin_row; bash_row]
                  fallback_services sample_performance gui_bash_selected).
Proof.
  apply (update_ui_deterministic (Some 8) None [kernel_row; bash_twin_row; bash_row]
           fallback_services sample_performance
           gui_bash_selected gui_bash_selected_later).
  reflexivity.
Defined.

Example update_ui_status_text :
  head (status_bar (update_ui (Some 8) [kernel_row; bash_twin_row; bash_row]
                      fallback_services sample_performance gui_bash_selected))
  = Some "Processes: 3 | CPU: 55.5% | Memory: 50.0%".
Proof. vm_compute. reflexivity. Qed.

Example update_performance_ui_labels :
  let tab := performance_tab
               (update_performance_ui (Some 8) sample_performance gui_bash_selected) in
  cpu_progress_text tab = "55.5%" /\
  mem_label tab = "Used: 8GB / 16GB (50.0%)".
Proof. vm_compute. split; reflexivity. Qed.

(** ** Sampler loop *)

Lemma update_thread_body_trace strftime_local os i trace :
  exists snapshot,
    snapshot_of_iteration strftime_local os i snapshot /\
    update_thread_body strftime_local os i trace
      = (trace ++ iteration_events snapshot, Ok tt).
Proof.
  destruct (get_services_total (ans_systemctl (os i))) as [services Hs].
  exists (mkSnapshot (get_processes (ans_process_iter (os i))) services
            (get_performance_data strftime_local (ans_stats (os i)))).
  split; [repeat split; exact Hs|].
  unfold update_thread_body, mbind, thread_bind, perform. rewrite Hs.
  unfold iteration_events. rewrite <- !app_assoc. reflexivity.
Qed.

Lemma update_thread_trace strftime_local os n : forall i trace,
  exists snapshots,
    length snapshots = n /\
    (forall k snapshot, snapshots !! k = Some snapshot ->
                        snapshot_of_iteration strftime_local os (i + k) snapshot) /\
    update_thread strftime_local os n i trace
      = (trace ++ concat (map iteration_events snapshots), Ok tt).
Proof.
  induction n as [|n IH]; intros i trace.
  - exists []. split; [reflexivity|]. split; [intros k s Hk; discriminate|].
    simpl. now rewrite app_nil_r.
  - destruct (update_thread_body_trace strftime_local os i trace) as (s & Hs & Hbody).
    destruct (IH (S i) (trace ++ iteration_events s)) as (ss & Hlen & Hss & Hrest).
    exists (s :: ss). split; [simpl; now rewrite Hlen|]. split.
    + intros [|k] s' Hk; simpl in Hk.
      * injection Hk as <-. now rewrite Nat.add_0_r.
      * rewrite Nat.add_succ_r. exact (Hss k s' Hk).
    + cbn [update_thread]. unfold mbind at 1, thread_bind at 1. rewrite Hbody, Hrest.
      cbn [map concat]. now rewrite <- app_assoc.
Qed.

Example update_data_two_iterations :
  update_data sample_strftime sample_os 2
  = ([CaptureProcesses; CaptureServices; CapturePerformance; IdleAdd sample_snapshot;
      Sleep 10;
      CaptureProcesses; CaptureServices; CapturePerformance; IdleAdd sample_snapshot;
      Sleep 10], Ok tt).
Proof. vm_compute. reflexivity. Qed.

(** C7: the trace of the sampler thread after [n] iterations is, iteration
    by iteration, process capture, service capture, performance capture,
    dispatch of the snapshot made of these three captures, and then the
    sleep of [update_interval] seconds; the loop is still running after any
    number of iterations, and the first dispatch precedes every sleep. *)
Theorem update_data_event_order (strftime_local : float -> string)
    (os : nat -> OsAnswer) (n : nat) :
  exists snapshots,
    length snapshots = n /\
    (forall i snapshot, snapshots !! i = Some snapshot ->
                        snapshot_of_iteration strftime_local os i snapshot) /\
    update_data strftime_local os n
      = (concat (map iteration_events snapshots), Ok tt) /\
    (forall first rest, snapshots = first :: rest ->
       take 4 (fst (update_data strftime_local os n))
         = [CaptureProcesses; CaptureServices; CapturePerformance; IdleAdd first]) /\
    (forall k seconds,
       fst (update_data strftime_local os n) !! k = Some (Sleep seconds) ->
       (4 <= k)%nat /\ seconds = 10).
Proof.
  unfold update_data.
  destruct (update_thread_trace strftime_local os n 0%nat []) as (ss & Hlen & Hss & Htrace).
  exists ss. split; [exact Hlen|]. split; [exact Hss|]. split; [exact Htrace|].
  rewrite Htrace. simpl fst. split.
  - intros first rest ->. reflexivity.
  - clear. intros k seconds. revert k.
    induction ss as [|s ss IH]; intros k Hk; [discriminate|].
    destruct k as [|[|[|[|[|k]]]]]; simpl in Hk; try discriminate.
    + injection Hk as <-. split; [lia | reflexivity].
    + destruct (IH k Hk) as [? ->]. split; [lia | reflexivity].
Qed.

(** * Further properties *)

(** ** Splitting *)

Lemma no_space_app s c :
  no_space s = true -> Py.isspace c = false -> no_space (s +:+ String c "") = true.
Proof.
  intros Hs Hc. induction s as [|a s IH]; simpl in *.
  - now rewrite Hc.
  - apply andb_prop in Hs as [Ha Hs]. rewrite Ha. exact (IH Hs).
Qed.

Lemma app_char_nonempty s c : s +:+ String c "" <> "".
Proof. destruct s; discriminate. Qed.

Lemma split_ws_words s : forall cur,
  no_space cur = true -> Forall word (Py.split_ws cur s).
Proof.
  induction s as [|c s IH]; intros cur Hcur; simpl.
  - destruct cur; repeat constructor; [discriminate | exact Hcur].
  - destruct (Py.isspace c) eqn:Hc.
    + destruct cur; [now apply IH|].
      constructor; [split; [discriminate | exact Hcur] | now apply IH].
    + apply IH. now apply no_space_app.
Qed.

Lemma split_words line : Forall word (Py.split line).
Proof. now apply split_ws_words. Qed.

Lemma split_on_nonempty sep s : Py.split_on sep s <> [].
Proof.
  destruct s as [|c s]; simpl; [discriminate|].
  destruct (Ascii.eqb c sep); [discriminate|].
  destruct (Py.split_on sep s); discriminate.
Qed.

Lemma split_on_app sep a b :
  Py.split_on sep (a +:+ String sep b) = Py.split_on sep a ++ Py.split_on sep b.
Proof.
  induction a as [|c a IH]; simpl.
  - now rewrite Ascii.eqb_refl.
  - destruct (Ascii.eqb c sep); [now rewrite IH|].
    rewrite IH. pose proof (split_on_nonempty sep a).
    destruct (Py.split_on sep a); [congruence | reflexivity].
Qed.

Lemma split_on_no_newline s :
  no_newline s = true -> Py.split_on Py.newline s = [s].
Proof.
  induction s as [|c s IH]; simpl; [reflexivity|].
  intros [Hc Hs]%andb_prop. apply negb_true_iff in Hc. rewrite Hc, (IH Hs). reflexivity.
Qed.

Lemma nl_append s : nl +:+ s = String Py.newline s.
Proof. reflexivity. Qed.

(** ** Service source, continued *)

Lemma line_records_length line : (length (line_records line) <= 1)%nat.
Proof.
  unfold line_records.
  destruct (Py.split line) as [|p0 [|p1 [|p2 [|p3 ps]]]]; simpl; lia.
Qed.

Lemma concat_line_records_length lines :
  (length (concat (map line_records lines)) <= length lines)%nat.
Proof.
  induction lines as [|line lines IH]; simpl; [lia|].
  rewrite length_app. pose proof (line_records_length line). lia.
Qed.

Lemma line_records_words line :
  Forall (fun s => word (svc_name s) /\ word (svc_status s)) (line_records line).
Proof.
  unfold line_records. pose proof (split_words line) as H.
  destruct (Py.split line) as [|p0 [|p1 [|p2 [|p3 ps]]]]; try constructor; [|constructor].
  simpl. split.
  - now inversion H.
  - do 3 apply Forall_cons_1 in H as [_ H]. now apply Forall_cons_1 in H as [H _].
Qed.

(** X1: The services list never has more than five rows, whatever the query
    does. *)
Theorem get_services_at_most_five (run : result CompletedProcess) :
  exists services, get_services run = Ok services /\ (length services <= 5)%nat.
Proof.
  destruct run as [cp|e].
  - rewrite get_services_completed. eexists. split; [reflexivity|].
    etransitivity; [apply concat_line_records_length|].
    rewrite length_take. lia.
  - exists fallback_services. split; [reflexivity | simpl; lia].
Qed.

Lemma concat_line_records_words lines :
  Forall (fun s => word (svc_name s) /\ word (svc_status s))
         (concat (map line_records lines)).
Proof.
  induction lines as [|line lines IH]; simpl; [constructor|].
  apply Forall_app. split; [apply line_records_words | exact IH].
Qed.

Lemma get_services_name_nonempty run services row :
  get_services run = Ok services -> row ∈ services -> svc_name row <> "".
Proof.
  destruct run as [cp|e].
  - rewrite get_services_completed. intros [= <-] Hin.
    pose proof (concat_line_records_words
                  (take 5 (drop 1 (Py.split_on Py.newline (stdout cp))))) as H.
    rewrite Forall_forall in H. now apply (H row Hin).
  - intros [= <-] Hin. simpl in Hin.
    repeat (apply elem_of_cons in Hin as [->|Hin]; [discriminate|]).
    now apply elem_of_nil in Hin.
Qed.

(** X2: Every name and every status [get_services] reports, parsed or
    placeholder, is non-empty and free of whitespace. *)
Theorem get_services_reports_words (run : result CompletedProcess) :
  exists services,
    get_services run = Ok services /\
    Forall (fun s => word (svc_name s) /\ word (svc_status s)) services.
Proof.
  destruct run as [cp|e].
  - rewrite get_services_completed. eexists. split; [reflexivity|].
    apply concat_line_records_words.
  - exists fallback_services. split; [reflexivity|].
    repeat constructor; discriminate.
Qed.

(** X3: Output of a single line (no newline in it: only a header, or nothing
    at all) gives no service, whatever the exit status. *)
Theorem get_services_single_line_output (cp : CompletedProcess) :
  no_newline (stdout cp) = true -> get_services (Ok cp) = Ok [].
Proof.
  intros H. rewrite get_services_completed, (split_on_no_newline _ H). reflexivity.
Qed.

Lemma get_services_single_line_output_witness :
  get_services (Ok (mkCompleted 0 "0 loaded units listed." "")) = Ok [].
Proof.
  apply (get_services_single_line_output (mkCompleted 0 "0 loaded units listed." "")).
  reflexivity.
Defined.

(** X4: The header line, everything after the sixth line, the exit status and
    the error output have no influence on the services reported. *)
Theorem get_services_ignores_header_and_tail (rc1 rc2 : Z) (err1 err2 : string)
    (header1 header2 body tail : string) :
  no_newline header1 = true ->
  no_newline header2 = true ->
  (5 <= length (Py.split_on Py.newline body))%nat ->
  get_services (Ok (mkCompleted rc1 (header1 +:+ nl +:+ body +:+ nl +:+ tail) err1))
  = get_services (Ok (mkCompleted rc2 (header2 +:+ nl +:+ body) err2)).
Proof.
  intros H1 H2 Hbody. rewrite !get_services_completed. simpl stdout.
  rewrite !nl_append, !split_on_app.
  rewrite (split_on_no_newline _ H1), (split_on_no_newline _ H2).
  cbn [app skipn]. rewrite !drop_0. now rewrite take_app_le by exact Hbody.
Qed.

Lemma get_services_ignores_header_and_tail_witness :
  get_services
    (Ok (mkCompleted 3
           ("  UNIT LOAD ACTIVE SUB DESCRIPTION" +:+ nl +:+ sample_body +:+ nl +:+
            "ssh.service loaded active running OpenBSD Secure Shell server")
           "warning"))
  = get_services (Ok (mkCompleted 0 ("" +:+ nl +:+ sample_body) "")).
Proof.
  apply (get_services_ignores_header_and_tail 3 0 "warning" ""
           "  UNIT LOAD ACTIVE SUB DESCRIPTION" "" sample_body
           "ssh.service loaded active running OpenBSD Secure Shell server").
  - reflexivity.
  - reflexivity.
  - vm_compute. lia.
Defined.

(** ** Process source, continued *)

(** X5: [get_processes] returns exactly the rows that were read: a row is in
    the result if and only if the iterator yielded it readable, and every
    yielded process is either returned or was skipped for one of the two
    caught errors. *)
Theorem get_processes_accounts_for_every_read (process_iter : list ProcRead) :
  (forall row, row ∈ get_processes process_iter <-> Info row ∈ process_iter) /\
  length process_iter
    = (length (get_processes process_iter) + length (failed_reads process_iter))%nat.
Proof.
  rewrite get_processes_rows_read. unfold rows_read, failed_reads. split.
  - intros row. rewrite list_elem_of_omap. split.
    + intros ([r| |] & Hin & Hr); simplify_eq. exact Hin.
    + intros Hin. exists (Info row). split; [exact Hin | reflexivity].
  - induction process_iter as [|[r| |] iter IH]; cbn in *; lia.
Qed.

(** ** Selection after [update_ui] *)

Lemma select_first_match_get_selected {A} (matches : A -> bool) (new_rows : list A) row :
  get_selected (select_first_match matches new_rows 0 {| rows := new_rows; selected := None |})
    = Some row ->
  matches row = true /\ row ∈ new_rows.
Proof.
  rewrite select_first_match_find.
  destruct (list_find _ new_rows) as [[k r]|] eqn:E; [|discriminate].
  apply list_find_Some in E as (Hk & Hr & _).
  unfold get_selected. simpl. rewrite Hk. intros [= <-].
  split; [exact Hr | eapply list_elem_of_lookup_2; exact Hk].
Qed.

Lemma select_first_match_valid {A} (matches : A -> bool) (new_rows : list A) :
  valid_selection
    (select_first_match matches new_rows 0 {| rows := new_rows; selected := None |}).
Proof.
  intros i. rewrite select_first_match_rows. simpl. intros Hsel.
  apply select_first_match_selected in Hsel as (row & Hi & _).
  eapply lookup_lt_Some. exact Hi.
Qed.

Lemma restore_process_selection_get_selected selected_pid processes row :
  get_selected (restore_process_selection selected_pid
                  {| rows := processes; selected := None |}) = Some row ->
  selected_pid = Some (proc_pid row) /\ row ∈ processes /\ proc_pid row <> 0.
Proof.
  destruct selected_pid as [pid|]; [|discriminate]. simpl.
  destruct (Py.truthy_int pid) eqn:Ht; [|discriminate].
  intros [Hm Hin]%select_first_match_get_selected.
  apply Z.eqb_eq in Hm. subst pid. repeat split; [exact Hin|].
  intros H0. rewrite H0 in Ht. discriminate.
Qed.

Lemma restore_service_selection_get_selected selected_service services row :
  get_selected (restore_service_selection selected_service
                  {| rows := services; selected := None |}) = Some row ->
  selected_service = Some (svc_name row) /\ row ∈ services /\ svc_name row <> "".
Proof.
  destruct selected_service as [name|]; [|discriminate]. simpl.
  destruct (Py.truthy_str name) eqn:Ht; [|discriminate].
  intros [Hm Hin]%select_first_match_get_selected.
  apply String.eqb_eq in Hm. subst name. repeat split; [exact Hin|].
  intros H0. rewrite H0 in Ht. discriminate.
Qed.

(** X6: A refresh never moves the selection to another process or service:
    the row selected after [update_ui], if there is one, is a row of the new
    snapshot that carries the PID (the name) that was selected before. *)
Theorem update_ui_selection_keeps_identity (cpu_count : option Z)
    (processes : list ProcRow) (services : list ServiceRow)
    (performance : Performance) (self : Gui) :
  let self' := update_ui cpu_count processes services performance self in
  (forall row, get_selected (treeview self') = Some row ->
     row ∈ processes /\
     exists before, get_selected (treeview self) = Some before /\
                    proc_pid before = proc_pid row) /\
  (forall row, get_selected (services_treeview self') = Some row ->
     row ∈ services /\
     exists before, get_selected (services_treeview self) = Some before /\
                    svc_name before = svc_name row).
Proof.
  cbv zeta. rewrite update_ui_treeview, update_ui_services_treeview. split.
  - intros row (Hsel & Hin & _)%restore_process_selection_get_selected.
    split; [exact Hin|]. simpl in Hsel.
    destruct (get_selected (treeview self)) as [before|]; [|discriminate].
    exists before. split; [reflexivity | now injection Hsel].
  - intros row (Hsel & Hin & _)%restore_service_selection_get_selected.
    split; [exact Hin|]. simpl in Hsel.
    destruct (get_selected (services_treeview self)) as [before|]; [|discriminate].
    exists before. split; [reflexivity | now injection Hsel].
Qed.

Lemma update_ui_valid cpu_count processes services performance self :
  valid_gui (update_ui cpu_count processes services performance self).
Proof.
  unfold valid_gui. rewrite update_ui_treeview, update_ui_services_treeview.
  unfold restore_process_selection, restore_service_selection. split.
  - destruct (selected_pid _) as [pid|]; [|intros i; discriminate].
    destruct (Py.truthy_int pid); [apply select_first_match_valid | intros i; discriminate].
  - destruct (selected_service _) as [name|]; [|intros i; discriminate].
    destruct (Py.truthy_str name); [apply select_first_match_valid | intros i; discriminate].
Qed.

(** X7: A service selected in a list that [get_services] produced is selected
    again after [update_ui] whenever the new services still have a row of
    that name: names from [get_services] are never empty, so the truth test
    on the captured name cannot discard them. *)
Theorem update_ui_restores_reported_service (run : result CompletedProcess)
    (cpu_count : option Z) (processes : list ProcRow) (services : list ServiceRow)
    (performance : Performance) (self : Gui) (before still : ServiceRow) :
  get_services run = Ok (rows (services_treeview self)) ->
  get_selected (services_treeview self) = Some before ->
  still ∈ services ->
  svc_name still = svc_name before ->
  exists row,
    get_selected
      (services_treeview (update_ui cpu_count processes services performance self))
      = Some row /\
    svc_name row = svc_name before.
Proof.
  intros Hrun Hsel Hin Hname.
  assert (Hne : svc_name before <> "").
  { apply (get_services_name_nonempty run _ before Hrun).
    unfold get_selected in Hsel.
    destruct (selected (services_treeview self)) as [i|]; [|discriminate].
    eapply list_elem_of_lookup_2. exact Hsel. }
  rewrite update_ui_services_treeview. simpl. rewrite Hsel. simpl.
  rewrite (truthy_str_nonempty _ Hne), select_first_match_find.
  destruct (list_find _ services) as [[k r]|] eqn:E.
  - apply list_find_Some in E as (Hk & Hr & _).
    exists r. unfold get_selected. simpl. rewrite Hk.
    split; [reflexivity | now apply String.eqb_eq].
  - exfalso. apply list_find_None in E. rewrite Forall_forall in E.
    apply (E still Hin). now apply String.eqb_eq.
Qed.

Lemma update_ui_restores_reported_service_witness :
  exists row,
    get_selected
      (services_treeview
         (update_ui None [] [nginx_failed] sample_performance gui_bash_selected))
      = Some row /\
    svc_name row = "nginx.service".
Proof.
  apply (update_ui_restores_reported_service (Raise FileNotFoundError) None []
           [nginx_failed] sample_performance gui_bash_selected
           (mkService "nginx.service" "active" "Web Server" "9012") nginx_failed).
  - reflexivity.
  - reflexivity.
  - apply list_elem_of_here.
  - reflexivity.
Defined.

(** ** Idle calls *)

Lemma run_idle_calls_app calls1 calls2 self :
  run_idle_calls (calls1 ++ calls2) self
  = run_idle_calls calls2 (run_idle_calls calls1 self).
Proof. apply fold_left_app. Qed.

Lemma run_idle_call_scroll self call :
  processes_scroll_pos (run_idle_call self call) = processes_scroll_pos self /\
  services_scroll_pos (run_idle_call self call) = services_scroll_pos self.
Proof. split; reflexivity. Qed.

Lemma run_idle_calls_scroll calls : forall self,
  processes_scroll_pos (run_idle_calls calls self) = processes_scroll_pos self /\
  services_scroll_pos (run_idle_calls calls self) = services_scroll_pos self.
Proof.
  induction calls as [|call calls IH]; intros self; [split; reflexivity|].
  cbn [run_idle_calls fold_left]. fold (run_idle_calls calls (run_idle_call self call)).
  destruct (IH (run_idle_call self call)) as [-> ->]. apply run_idle_call_scroll.
Qed.

Lemma run_idle_calls_status_bar calls : forall self,
  exists newer,
    status_bar (run_idle_calls calls self) = newer ++ status_bar self /\
    length newer = length calls.
Proof.
  induction calls as [|call calls IH]; intros self; [now exists []|].
  cbn [run_idle_calls fold_left]. fold (run_idle_calls calls (run_idle_call self call)).
  destruct (IH (run_idle_call self call)) as (newer & -> & Hlen).
  unfold run_idle_call. rewrite update_ui_status_bar.
  eexists (newer ++ [_]). split; [now rewrite <- app_assoc|].
  rewrite length_app. simpl. lia.
Qed.

Lemma run_idle_calls_valid calls : forall self,
  valid_gui self -> valid_gui (run_idle_calls calls self).
Proof.
  induction calls as [|call calls IH]; intros self Hvalid; [exact Hvalid|].
  cbn [run_idle_calls fold_left]. apply IH. apply update_ui_valid.
Qed.

Lemma run_idle_calls_pids calls : forall self pid,
  pid ∈ map proc_pid (rows (treeview (run_idle_calls calls self))) ->
  pid ∈ map proc_pid (rows (treeview self)) \/ pid ∈ call_pids calls.
Proof.
  induction calls as [|call calls IH]; intros self pid; [now left|].
  cbn [run_idle_calls fold_left]. intros [H|H]%IH.
  - right. unfold run_idle_call in H. rewrite (proj1 (update_ui_rows _ _ _ _ _)) in H.
    unfold call_pids. simpl. apply elem_of_app. now left.
  - right. unfold call_pids in *. simpl. apply elem_of_app. now right.
Qed.

Lemma call_pids_app calls1 calls2 :
  call_pids (calls1 ++ calls2) = call_pids calls1 ++ call_pids calls2.
Proof. unfold call_pids. now rewrite map_app, concat_app. Qed.

(** ** Ending a process *)

Lemma terminated_app events1 events2 :
  terminated (events1 ++ events2) = terminated events1 ++ terminated events2.
Proof. unfold terminated. apply omap_app. Qed.

(** The three ways [on_end_process] runs, by what is selected, what the
    dialog answers and what the process manager does. *)
Lemma on_end_process_unselected while_confirm response terminate while_error st :
  get_selected (treeview (ui_gui st)) = None ->
  on_end_process while_confirm response terminate while_error st = (st, Ok tt).
Proof.
  intros H. unfold on_end_process, mbind, ui_bind, ui_read. rewrite H. reflexivity.
Qed.

Lemma on_end_process_declined while_confirm response terminate while_error st row :
  get_selected (treeview (ui_gui st)) = Some row ->
  response <> RESPONSE_OK ->
  on_end_process while_confirm response terminate while_error st
  = ({| ui_gui := run_idle_calls while_confirm (ui_gui st);
        ui_log := ui_log st ++ [RunConfirmDialog (confirm_text (proc_name row) (proc_pid row));
                                DestroyConfirmDialog] |},
     Ok tt).
Proof.
  intros H Hr.
  unfold on_end_process, mbind, ui_bind, ui_read, ui_emit, dialog_run, ui_modify.
  rewrite H. destruct response; [congruence| |]; simpl; now rewrite <- app_assoc.
Qed.

Lemma on_end_process_confirmed while_confirm terminate while_error st row :
  get_selected (treeview (ui_gui st)) = Some row ->
  on_end_process while_confirm RESPONSE_OK terminate while_error st
  = let asked := ui_log st ++ [RunConfirmDialog (confirm_text (proc_name row) (proc_pid row));
                               Terminate (proc_pid row)] in
    let self := run_idle_calls while_confirm (ui_gui st) in
    match terminate (proc_pid row) with
    | Ok _ =>
        ({| ui_gui := status_bar_push ("Process " +:+ proc_name row +:+ " terminated") self;
            ui_log := asked ++ [DestroyConfirmDialog] |}, Ok tt)
    | Raise NoSuchProcess =>
        ({| ui_gui := run_idle_calls while_error self;
            ui_log := asked ++ [RunErrorDialog NoSuchProcess; DestroyErrorDialog;
                                DestroyConfirmDialog] |}, Ok tt)
    | Raise AccessDenied =>
        ({| ui_gui := run_idle_calls while_error self;
            ui_log := asked ++ [RunErrorDialog AccessDenied; DestroyErrorDialog;
                                DestroyConfirmDialog] |}, Ok tt)
    | Raise e => ({| ui_gui := self; ui_log := asked |}, Raise e)
    end.
Proof.
  intros H. cbv zeta.
  unfold on_end_process, mbind, ui_bind, ui_read, ui_emit, try_except_psutil, ui_call,
    dialog_run, ui_modify.
  rewrite H. cbn [ui_gui ui_log proc_pid].
  destruct (terminate (proc_pid row)) as [[]|[]]; cbn [ui_gui ui_log];
    rewrite <- ?app_assoc; reflexivity.
Qed.

Lemma on_end_process_confirmed_requests while_confirm terminate while_error st row :
  get_selected (treeview (ui_gui st)) = Some row ->
  terminated (ui_log (fst (on_end_process while_confirm RESPONSE_OK terminate
                             while_error st)))
    = terminated (ui_log st) ++ [proc_pid row].
Proof.
  intros Hsel. rewrite (on_end_process_confirmed _ _ _ _ _ Hsel). cbv zeta.
  destruct (terminate (proc_pid row)) as [[]|[]]; cbn [fst ui_log];
    rewrite !terminated_app; simpl; rewrite ?app_nil_r; reflexivity.
Qed.

(** The widgets after [on_end_process]: as they were, or as the idle calls
    that ran while a dialog was open left them, with at most one message
    pushed on top. *)
Lemma on_end_process_gui while_confirm response terminate while_error st :
  let self' := ui_gui (fst (on_end_process while_confirm response terminate
                              while_error st)) in
  self' = ui_gui st \/
  self' = run_idle_calls while_confirm (ui_gui st) \/
  (exists text,
     self' = status_bar_push text (run_idle_calls while_confirm (ui_gui st))) \/
  self' = run_idle_calls (while_confirm ++ while_error) (ui_gui st).
Proof.
  cbv zeta. destruct (get_selected (treeview (ui_gui st))) as [row|] eqn:Hsel.
  - destruct response.
    + rewrite (on_end_process_confirmed _ _ _ _ _ Hsel). cbv zeta.
      rewrite run_idle_calls_app.
      destruct (terminate (proc_pid row)) as [[]|[]]; cbn [fst ui_gui]; eauto 6.
    + rewrite (on_end_process_declined _ _ _ _ _ _ Hsel) by discriminate. eauto.
    + rewrite (on_end_process_declined _ _ _ _ _ _ Hsel) by discriminate. eauto.
  - rewrite (on_end_process_unselected _ _ _ _ _ Hsel). now left.
Qed.

(** X8: Without a selected row, or when the dialog is not answered with OK, no
    process is asked to terminate and the handler returns normally; the
    widgets change only through the idle calls that ran while the dialog was
    open. *)
Theorem on_end_process_needs_selection_and_consent (while_confirm : list IdleCall)
    (response : ResponseType) (terminate : Z -> result unit)
    (while_error : list IdleCall) (st : UiState) :
  get_selected (treeview (ui_gui st)) = None \/ response <> RESPONSE_OK ->
  let after := on_end_process while_confirm response terminate while_error st in
  snd after = Ok tt /\
  terminated (ui_log (fst after)) = terminated (ui_log st) /\
  ui_gui (fst after)
    = match get_selected (treeview (ui_gui st)) with
      | Some _ => run_idle_calls while_confirm (ui_gui st)
      | None => ui_gui st
      end.
Proof.
  intros H. cbv zeta.
  destruct (get_selected (treeview (ui_gui st))) as [row|] eqn:Hsel.
  - destruct H as [H|H]; [discriminate|].
    rewrite (on_end_process_declined _ _ _ _ _ _ Hsel H). cbn [fst snd ui_log ui_gui].
    repeat split. rewrite terminated_app. simpl. now rewrite app_nil_r.
  - rewrite (on_end_process_unselected _ _ _ _ _ Hsel). repeat split.
Qed.

Lemma on_end_process_needs_selection_and_consent_witness :
  snd (on_end_process [later_call] RESPONSE_DELETE_EVENT terminate_granted []
         (mkUiState gui_bash_selected [])) = Ok tt /\
  terminated (ui_log (fst (on_end_process [later_call] RESPONSE_DELETE_EVENT
                             terminate_granted [] (mkUiState gui_bash_selected []))))
    = terminated [] /\
  ui_gui (fst (on_end_process [later_call] RESPONSE_DELETE_EVENT terminate_granted []
                 (mkUiState gui_bash_selected [])))
    = match get_selected (treeview gui_bash_selected) with
      | Some _ => run_idle_calls [later_call] gui_bash_selected
      | None => gui_bash_selected
      end.
Proof.
  apply (on_end_process_needs_selection_and_consent [later_call] RESPONSE_DELETE_EVENT
           terminate_granted [] (mkUiState gui_bash_selected [])).
  right. discriminate.
Defined.

(** X9: With a row selected and the dialog answered with OK, exactly one
    process is asked to terminate: the one whose PID the selected row showed
    when the button was clicked, whatever that PID is (0 included), whatever
    the request leads to, and even when the list was refreshed while the
    dialog was open and no longer shows that process. *)
Theorem on_end_process_targets_selected_pid (while_confirm : list IdleCall)
    (terminate : Z -> result unit) (while_error : list IdleCall)
    (st : UiState) (row : ProcRow) :
  get_selected (treeview (ui_gui st)) = Some row ->
  terminated (ui_log (fst (on_end_process while_confirm RESPONSE_OK terminate
                             while_error st)))
    = terminated (ui_log st) ++ [proc_pid row].
Proof.
  intros Hsel. rewrite (on_end_process_confirmed _ _ _ _ _ Hsel). cbv zeta.
  set (asked := ui_log st ++ _).
  assert (Hasked : terminated asked = terminated (ui_log st) ++ [proc_pid row]).
  { unfold asked. rewrite terminated_app. reflexivity. }
  destruct (terminate (proc_pid row)) as [[]|[]]; cbn [fst ui_log];
    rewrite ?terminated_app, Hasked; simpl; rewrite ?app_nil_r; reflexivity.
Qed.

Lemma on_end_process_targets_selected_pid_witness :
  terminated (ui_log (fst (on_end_process [bash_gone_call] RESPONSE_OK terminate_granted
                             [] (mkUiState gui_bash_selected [])))) = [] ++ [4242].
Proof.
  apply (on_end_process_targets_selected_pid [bash_gone_call] terminate_granted []
           (mkUiState gui_bash_selected []) bash_row).
  reflexivity.
Defined.

(** X10: NoSuchProcess and AccessDenied from the process manager never leave
    the handler: it shows the error dialog, destroys both dialogs, pushes no
    status message of its own and returns normally. *)
Theorem on_end_process_reports_psutil_errors (while_confirm : list IdleCall)
    (terminate : Z -> result unit) (while_error : list IdleCall)
    (st : UiState) (row : ProcRow) (e : exn) :
  get_selected (treeview (ui_gui st)) = Some row ->
  terminate (proc_pid row) = Raise e ->
  e = NoSuchProcess \/ e = AccessDenied ->
  on_end_process while_confirm RESPONSE_OK terminate while_error st
  = ({| ui_gui := run_idle_calls (while_confirm ++ while_error) (ui_gui st);
        ui_log := ui_log st ++
                  [RunConfirmDialog (confirm_text (proc_name row) (proc_pid row));
                   Terminate (proc_pid row); RunErrorDialog e; DestroyErrorDialog;
                   DestroyConfirmDialog] |},
     Ok tt).
Proof.
  intros Hsel Hterm He.
  rewrite (on_end_process_confirmed _ _ _ _ _ Hsel), Hterm, run_idle_calls_app. cbv zeta.
  destruct He as [-> | ->]; now rewrite <- app_assoc.
Qed.

Lemma on_end_process_reports_psutil_errors_witness :
  on_end_process [] RESPONSE_OK terminate_denied [] (mkUiState gui_bash_selected [])
  = ({| ui_gui := run_idle_calls ([] ++ []) gui_bash_selected;
        ui_log := [] ++
                  [RunConfirmDialog (confirm_text "bash" 4242);
                   Terminate 4242; RunErrorDialog AccessDenied; DestroyErrorDialog;
                   DestroyConfirmDialog] |},
     Ok tt).
Proof.
  apply (on_end_process_reports_psutil_errors [] terminate_denied []
           (mkUiState gui_bash_selected []) bash_row AccessDenied).
  - reflexivity.
  - reflexivity.
  - right. reflexivity.
Defined.

(** X11: A granted request pushes the message naming the process as it was
    named when the button was clicked; any other exception than the two
    caught ones leaves the handler, and then the confirmation dialog is
    never destroyed and no message is pushed. *)
Theorem on_end_process_success_and_uncaught (while_confirm : list IdleCall)
    (terminate : Z -> result unit) (while_error : list IdleCall)
    (st : UiState) (row : ProcRow) :
  get_selected (treeview (ui_gui st)) = Some row ->
  let after := on_end_process while_confirm RESPONSE_OK terminate while_error st in
  (terminate (proc_pid row) = Ok tt ->
   snd after = Ok tt /\
   ui_gui (fst after)
     = status_bar_push ("Process " +:+ proc_name row +:+ " terminated")
         (run_idle_calls while_confirm (ui_gui st)) /\
   last (ui_log (fst after)) = Some DestroyConfirmDialog) /\
  (forall e, terminate (proc_pid row) = Raise e ->
     e <> NoSuchProcess -> e <> AccessDenied ->
     snd after = Raise e /\
     ui_gui (fst after) = run_idle_calls while_confirm (ui_gui st) /\
     ui_log (fst after)
       = ui_log st ++ [RunConfirmDialog (confirm_text (proc_name row) (proc_pid row));
                       Terminate (proc_pid row)]).
Proof.
  intros Hsel. cbv zeta. rewrite (on_end_process_confirmed _ _ _ _ _ Hsel). cbv zeta.
  split.
  - intros ->. cbn [fst snd ui_gui ui_log]. repeat split. now rewrite last_snoc.
  - intros e -> Hn Ha. destruct e; try congruence; repeat split.
Qed.

Lemma on_end_process_success_and_uncaught_witness :
  (snd (on_end_process [] RESPONSE_OK terminate_granted []
          (mkUiState gui_bash_selected [])) = Ok tt /\
   ui_gui (fst (on_end_process [] RESPONSE_OK terminate_granted []
                  (mkUiState gui_bash_selected [])))
     = status_bar_push ("Process " +:+ "bash" +:+ " terminated")
         (run_idle_calls [] gui_bash_selected) /\
   last (ui_log (fst (on_end_process [] RESPONSE_OK terminate_granted []
                        (mkUiState gui_bash_selected []))))
     = Some DestroyConfirmDialog) /\
  snd (on_end_process [] RESPONSE_OK terminate_granted []
         (mkUiState gui_kernel_selected []))
    = Raise (OtherError "preventing sending signal to process with PID 0").
Proof.
  split.
  - apply (proj1 (on_end_process_success_and_uncaught [] terminate_granted []
                    (mkUiState gui_bash_selected []) bash_row eq_refl)).
    reflexivity.
  - apply (proj2 (on_end_process_success_and_uncaught [] terminate_granted []
                    (mkUiState gui_kernel_selected []) kernel_row eq_refl)
             (OtherError "preventing sending signal to process with PID 0"));
      [reflexivity | discriminate | discriminate].
Defined.

(** X12: After a refresh, End Process can only reach the process that was
    selected before the refresh: a request made by a click right after
    [update_ui] is for the PID selected before it, a PID that is not 0 and
    is in the new snapshot, however the rows were reordered. *)
Theorem end_process_after_update_targets_prior_selection (call : IdleCall)
    (while_confirm : list IdleCall) (response : ResponseType)
    (terminate : Z -> result unit) (while_error : list IdleCall)
    (st : UiState) (pid : Z) :
  pid ∈ terminated
          (ui_log (fst (on_end_process while_confirm response terminate while_error
                          (fst (handle (IdleUpdate call) st))))) ->
  pid ∈ terminated (ui_log st) \/
  (selected_pid (view_state (ui_gui st)) = Some pid /\ pid <> 0 /\
   pid ∈ map proc_pid (snap_processes (call_snapshot call))).
Proof.
  cbn [handle ui_modify fst].
  set (st1 := {| ui_gui := run_idle_call (ui_gui st) call; ui_log := ui_log st |}).
  destruct (get_selected (treeview (ui_gui st1))) as [row|] eqn:Hsel.
  - destruct response.
    + rewrite (on_end_process_confirmed_requests _ _ _ _ _ Hsel).
      intros [Hin|Hin]%elem_of_app; [left; exact Hin|]. right.
      apply list_elem_of_singleton in Hin. subst pid.
      unfold st1 in Hsel. cbn [ui_gui] in Hsel. unfold run_idle_call in Hsel.
      rewrite update_ui_treeview in Hsel.
      apply restore_process_selection_get_selected in Hsel as (Hp & Hin & Hne).
      repeat split; [exact Hp | exact Hne | now apply list_elem_of_fmap_2].
    + rewrite (on_end_process_declined _ _ _ _ _ _ Hsel) by discriminate.
      cbn [fst ui_log]. rewrite terminated_app. simpl. rewrite app_nil_r. now left.
    + rewrite (on_end_process_declined _ _ _ _ _ _ Hsel) by discriminate.
      cbn [fst ui_log]. rewrite terminated_app. simpl. rewrite app_nil_r. now left.
  - rewrite (on_end_process_unselected _ _ _ _ _ Hsel). now left.
Qed.

Lemma end_process_after_update_targets_prior_selection_witness :
  4242 ∈ terminated [] \/
  (selected_pid (view_state gui_bash_selected) = Some 4242 /\ 4242 <> 0 /\
   4242 ∈ map proc_pid (snap_processes (call_snapshot later_call))).
Proof.
  apply (end_process_after_update_targets_prior_selection later_call [bash_gone_call]
           RESPONSE_OK terminate_granted [] (mkUiState gui_bash_selected []) 4242).
  vm_compute. apply list_elem_of_here.
Defined.

(** ** The presentation thread *)

Lemma main_loop_app actions1 actions2 st :
  main_loop (actions1 ++ actions2) st = main_loop actions2 (main_loop actions1 st).
Proof.
  revert st. induction actions1 as [|a actions1 IH]; intros st; simpl; [reflexivity|].
  apply IH.
Qed.

Lemma select_row_valid {A} i (view : TreeView A) :
  valid_selection view -> valid_selection (select_row i view).
Proof.
  unfold select_row. destruct (i <? length (rows view))%nat eqn:Hi; [|trivial].
  intros _ j. simpl. intros [= <-]. now apply Nat.ltb_lt.
Qed.

(** X13: Whatever the user and the sampler do, the selection of each list stays
    on a row that exists: [update_ui] never selects an index outside the
    rows it has just stored, and no other handler moves the selection. *)
Theorem main_loop_keeps_selection_valid (actions : list UiAction) (st : UiState) :
  valid_gui (ui_gui st) -> valid_gui (ui_gui (main_loop actions st)).
Proof.
  revert st. induction actions as [|a actions IH]; intros st Hvalid; [exact Hvalid|].
  cbn [main_loop]. apply IH.
  destruct a as [call|wc r t we| |v|v|i|i]; cbn [handle ui_modify fst ui_gui].
  - apply update_ui_valid.
  - destruct (on_end_process_gui wc r t we st) as [->|[->|[[text ->]| ->]]].
    + exact Hvalid.
    + now apply run_idle_calls_valid.
    + now apply (run_idle_calls_valid wc).
    + now apply run_idle_calls_valid.
  - exact Hvalid.
  - exact Hvalid.
  - exact Hvalid.
  - destruct Hvalid as [Hp Hs]. split; [now apply select_row_valid | exact Hs].
  - destruct Hvalid as [Hp Hs]. split; [exact Hp | now apply select_row_valid].
Qed.

Lemma main_loop_keeps_selection_valid_witness :
  valid_gui (ui_gui (main_loop sample_actions (mkUiState gui_kernel_selected []))).
Proof.
  apply (main_loop_keeps_selection_valid sample_actions
           (mkUiState gui_kernel_selected [])).
  split; intros i; simpl; [intros [= <-]; lia | discriminate].
Defined.

Lemma handle_status_bar action st :
  exists newer,
    status_bar (ui_gui (fst (handle action st))) = newer ++ status_bar (ui_gui st) /\
    length newer = (update_calls action (ui_gui st) + own_messages action (ui_gui st))%nat.
Proof.
  destruct action as [call|wc r t we| |v|v|i|i];
    try (exists []; split; reflexivity).
  - cbn [handle ui_modify fst ui_gui]. eexists [_].
    split; [apply update_ui_status_bar | reflexivity].
  - cbn [handle]. unfold update_calls, own_messages.
    destruct (get_selected (treeview (ui_gui st))) as [row|] eqn:Hsel.
    + destruct (run_idle_calls_status_bar wc (ui_gui st)) as (new_c & Hc & Hlen_c).
      destruct r.
      * rewrite (on_end_process_confirmed _ _ _ _ _ Hsel). cbv zeta.
        destruct (run_idle_calls_status_bar we (run_idle_calls wc (ui_gui st)))
          as (new_e & He & Hlen_e).
        destruct (t (proc_pid row)) as [[]|[]]; cbn [fst ui_gui];
          try (exists new_c; split; [exact Hc | lia]).
        -- exists (("Process " +:+ proc_name row +:+ " terminated") :: new_c).
           cbn [status_bar_push status_bar]. rewrite Hc.
           split; [reflexivity | simpl; lia].
        -- exists (new_e ++ new_c). rewrite He, Hc, app_assoc.
           split; [reflexivity | rewrite length_app; lia].
        -- exists (new_e ++ new_c). rewrite He, Hc, app_assoc.
           split; [reflexivity | rewrite length_app; lia].
      * rewrite (on_end_process_declined _ _ _ _ _ _ Hsel) by discriminate.
        exists new_c. split; [exact Hc | lia].
      * rewrite (on_end_process_declined _ _ _ _ _ _ Hsel) by discriminate.
        exists new_c. split; [exact Hc | lia].
    + rewrite (on_end_process_unselected _ _ _ _ _ Hsel).
      exists []. split; [reflexivity | destruct r; reflexivity].
  - eexists [_]. split; reflexivity.
Qed.

Lemma pushes_counted action self :
  ((if pushes action then 1 else 0)
   <= update_calls action self + own_messages action self)%nat.
Proof. destruct action; simpl; lia. Qed.

(** X14: No handler ever removes a status message: after any run of the main
    loop the earlier messages are all still on the stack, under exactly one
    new message for every [update_ui] call that ran (the calls that ran
    while a dialog was open included), every Refresh click and every granted
    terminate request; so there is at least one new message for every idle
    update and every Refresh click handled. *)
Theorem main_loop_status_bar_only_grows (actions : list UiAction) (st : UiState) :
  exists newer,
    status_bar (ui_gui (main_loop actions st)) = newer ++ status_bar (ui_gui st) /\
    length newer = (over_run update_calls actions st
                    + over_run own_messages actions st)%nat /\
    (length (List.filter pushes actions) <= length newer)%nat.
Proof.
  revert st. induction actions as [|a actions IH]; intros st.
  - exists []. repeat split. simpl. lia.
  - destruct (handle_status_bar a st) as (new1 & H1 & Hlen1).
    destruct (IH (fst (handle a st))) as (new2 & H2 & Hlen2 & Hpush2).
    pose proof (pushes_counted a (ui_gui st)) as Hpush1.
    exists (new2 ++ new1). split; [|split].
    + cbn [main_loop]. rewrite H2, H1. now rewrite app_assoc.
    + rewrite length_app. cbn [over_run]. lia.
    + rewrite length_app. cbn [List.filter]. destruct (pushes a); simpl in *; lia.
Qed.

Example main_loop_status_bar_sample :
  over_run update_calls sample_actions (mkUiState gui_kernel_selected []) = 3%nat /\
  over_run own_messages sample_actions (mkUiState gui_kernel_selected []) = 2%nat /\
  length (status_bar (ui_gui (main_loop sample_actions
                                (mkUiState gui_kernel_selected [])))) = 5%nat.
Proof. vm_compute. repeat split. Qed.

Lemma handle_scroll_pos action st :
  processes_scroll_pos (ui_gui (fst (handle action st)))
    = match action with
      | ScrollProcesses x => x
      | _ => processes_scroll_pos (ui_gui st)
      end /\
  services_scroll_pos (ui_gui (fst (handle action st)))
    = match action with
      | ScrollServices x => x
      | _ => services_scroll_pos (ui_gui st)
      end.
Proof.
  destruct action as [call|wc r t we| |v|v|i|i]; cbn [handle ui_modify fst ui_gui];
    try (split; reflexivity).
  destruct (on_end_process_gui wc r t we st) as [->|[->|[[text ->]| ->]]].
  - split; reflexivity.
  - apply run_idle_calls_scroll.
  - apply (run_idle_calls_scroll wc).
  - apply run_idle_calls_scroll.
Qed.

(** X15: The saved scroll offsets change only when the user scrolls: after any
    run of the main loop each is the value of the last move of its scroll
    bar (the starting value when there was none), and an update that follows
    sets both adjustments to exactly these values. *)
Theorem main_loop_scroll_offsets_follow_user (actions : list UiAction) (st : UiState) :
  (processes_scroll_pos (ui_gui (main_loop actions st))
     = last_processes_scroll actions (processes_scroll_pos (ui_gui st)) /\
   services_scroll_pos (ui_gui (main_loop actions st))
     = last_services_scroll actions (services_scroll_pos (ui_gui st))) /\
  (forall call,
     get_value (processes_scrolled
                  (ui_gui (main_loop (actions ++ [IdleUpdate call]) st)))
       = last_processes_scroll actions (processes_scroll_pos (ui_gui st)) /\
     get_value (services_scrolled
                  (ui_gui (main_loop (actions ++ [IdleUpdate call]) st)))
       = last_services_scroll actions (services_scroll_pos (ui_gui st))).
Proof.
  assert (Hpos : forall acts s,
    processes_scroll_pos (ui_gui (main_loop acts s))
      = last_processes_scroll acts (processes_scroll_pos (ui_gui s)) /\
    services_scroll_pos (ui_gui (main_loop acts s))
      = last_services_scroll acts (services_scroll_pos (ui_gui s))).
  { induction acts as [|a acts IH]; intros s; [split; reflexivity|].
    cbn [main_loop]. destruct (IH (fst (handle a s))) as [-> ->].
    destruct (handle_scroll_pos a s) as [-> ->].
    unfold last_processes_scroll, last_services_scroll. cbn [fold_left].
    destruct a; split; reflexivity. }
  split; [apply Hpos|].
  intros call. rewrite main_loop_app. cbn [main_loop handle ui_modify fst ui_gui].
  unfold run_idle_call.
  destruct (update_ui_scroll (call_cpu_count call) (snap_processes (call_snapshot call))
              (snap_services (call_snapshot call)) (snap_performance (call_snapshot call))
              (ui_gui (main_loop actions st)))
    as (-> & -> & _ & _).
  cbn [get_value]. apply Hpos.
Qed.

Lemma get_selected_in_rows {A} (view : TreeView A) row :
  get_selected view = Some row -> row ∈ rows view.
Proof.
  unfold get_selected. destruct (selected view) as [i|]; [|discriminate].
  simpl. apply list_elem_of_lookup_2.
Qed.

Lemma handle_terminated action st pid :
  pid ∈ terminated (ui_log (fst (handle action st))) ->
  pid ∈ terminated (ui_log st) \/ pid ∈ map proc_pid (rows (treeview (ui_gui st))).
Proof.
  destruct action as [call|wc r t we| |v|v|i|i]; cbn [handle ui_modify fst ui_log];
    try (intros H; left; exact H).
  destruct (get_selected (treeview (ui_gui st))) as [row|] eqn:Hsel.
  - destruct r.
    + rewrite (on_end_process_confirmed_requests _ _ _ _ _ Hsel).
      intros [Hin|Hin]%elem_of_app; [now left|]. right.
      apply list_elem_of_singleton in Hin. subst pid.
      apply list_elem_of_fmap_2. now apply get_selected_in_rows.
    + rewrite (on_end_process_declined _ _ _ _ _ _ Hsel) by discriminate.
      cbn [fst ui_log]. rewrite terminated_app. simpl. rewrite app_nil_r. now left.
    + rewrite (on_end_process_declined _ _ _ _ _ _ Hsel) by discriminate.
      cbn [fst ui_log]. rewrite terminated_app. simpl. rewrite app_nil_r. now left.
  - rewrite (on_end_process_unselected _ _ _ _ _ Hsel). now left.
Qed.

Lemma select_row_rows {A} i (view : TreeView A) : rows (select_row i view) = rows view.
Proof. unfold select_row. now destruct (i <? length (rows view))%nat. Qed.

Lemma handle_pids action st pid :
  pid ∈ map proc_pid (rows (treeview (ui_gui (fst (handle action st))))) ->
  pid ∈ map proc_pid (rows (treeview (ui_gui st))) \/ pid ∈ delivered_pids [action].
Proof.
  unfold delivered_pids. cbn [map concat]. rewrite app_nil_r.
  destruct action as [call|wc r t we| |v|v|i|i]; cbn [handle ui_modify fst ui_gui];
    try (intros H; left; exact H).
  - intros H. apply (run_idle_calls_pids [call]) in H. exact H.
  - destruct (on_end_process_gui wc r t we st) as [->|[->|[[text ->]| ->]]].
    + now left.
    + intros [H|H]%run_idle_calls_pids; [now left|].
      right. rewrite call_pids_app. apply elem_of_app. now left.
    + intros [H|H]%(run_idle_calls_pids wc); [now left|].
      right. rewrite call_pids_app. apply elem_of_app. now left.
    + apply run_idle_calls_pids.
  - intros H. left.
    change (pid ∈ map proc_pid (rows (select_row i (treeview (ui_gui st))))) in H.
    now rewrite select_row_rows in H.
Qed.

(** X16: Only processes that were on display are ever asked to terminate: every
    request made during a run of the main loop is for a PID shown at the
    start or delivered by one of the updates of that run. *)
Theorem main_loop_terminates_only_shown (actions : list UiAction) (st : UiState)
    (pid : Z) :
  pid ∈ terminated (ui_log (main_loop actions st)) ->
  pid ∈ terminated (ui_log st) \/
  pid ∈ map proc_pid (rows (treeview (ui_gui st))) \/
  pid ∈ delivered_pids actions.
Proof.
  revert st. induction actions as [|a actions IH]; intros st; cbn [main_loop];
    [now left|].
  assert (Hcons : delivered_pids (a :: actions)
                  = delivered_pids [a] ++ delivered_pids actions).
  { unfold delivered_pids. cbn [map concat]. now rewrite app_nil_r. }
  rewrite Hcons. intros [H|[H|H]]%IH.
  - apply handle_terminated in H as [H|H]; [now left | now right; left].
  - apply handle_pids in H as [H|H]; [now right; left|].
    right; right. apply elem_of_app. now left.
  - right; right. apply elem_of_app. now right.
Qed.

Lemma main_loop_terminates_only_shown_witness :
  4242 ∈ terminated [] \/
  4242 ∈ map proc_pid (rows (treeview gui_kernel_selected)) \/
  4242 ∈ delivered_pids sample_actions.
Proof.
  apply (main_loop_terminates_only_shown sample_actions
           (mkUiState gui_kernel_selected []) 4242).
  vm_compute. apply list_elem_of_here.
Defined.

(** ** From the sampler to the display *)

Lemma dispatched_iteration_events snapshots :
  dispatched (concat (map iteration_events snapshots)) = snapshots.
Proof.
  induction snapshots as [|s ss IH]; [reflexivity|].
  cbn [map concat]. unfold dispatched in *. rewrite omap_app, IH. reflexivity.
Qed.

(** The updates the main loop runs for the snapshots [snapshots], the CPU
    count read during the [i]-th of them being [cpu_counts i]. *)
Lemma idle_updates_snoc (cpu_counts : nat -> option Z) snapshots last :
  imap (fun i s => IdleUpdate (mkIdleCall (cpu_counts i) s)) (snapshots ++ [last])
  = imap (fun i s => IdleUpdate (mkIdleCall (cpu_counts i) s)) snapshots
    ++ [IdleUpdate (mkIdleCall (cpu_counts (length snapshots)) last)].
Proof. rewrite imap_app. simpl. now rewrite Nat.add_0_r. Qed.

(** X17: Once the main loop has run the updates of the first [n + 1] sampler
    iterations, both lists show exactly what iteration [n] captured (the
    latest sample, nothing of the earlier ones), and the status bar reports
    that sample. *)
Theorem display_shows_latest_sample (strftime_local : float -> string)
    (os : nat -> OsAnswer) (cpu_counts : nat -> option Z) (n : nat) (st : UiState) :
  let samples := dispatched (fst (update_data strftime_local os (S n))) in
  let self :=
    ui_gui (main_loop (imap (fun i s => IdleUpdate (mkIdleCall (cpu_counts i) s)) samples)
              st) in
  length samples = S n /\
  rows (treeview self) = get_processes (ans_process_iter (os n)) /\
  get_services (ans_systemctl (os n)) = Ok (rows (services_treeview self)) /\
  head (status_bar self)
    = Some (status_text (get_processes (ans_process_iter (os n)))
              (get_performance_data strftime_local (ans_stats (os n)))).
Proof.
  cbv zeta. unfold update_data.
  destruct (update_thread_trace strftime_local os (S n) 0%nat [])
    as (ss & Hlen & Hss & ->).
  cbn [fst app]. rewrite dispatched_iteration_events.
  split; [exact Hlen|].
  destruct ss as [|last ss' _] using rev_ind; [discriminate|].
  rewrite length_app in Hlen. simpl in Hlen.
  assert (Hn : length ss' = n) by lia.
  destruct (Hss n last) as (Hp & Hs & Hperf).
  { rewrite lookup_app_r by lia. now replace (n - length ss')%nat with 0%nat by lia. }
  rewrite idle_updates_snoc, main_loop_app.
  cbn [main_loop handle ui_modify fst ui_gui]. unfold run_idle_call.
  cbn [call_cpu_count call_snapshot].
  destruct (update_ui_rows (cpu_counts (length ss')) (snap_processes last)
              (snap_services last) (snap_performance last)
              (ui_gui (main_loop
                         (imap (fun i s => IdleUpdate (mkIdleCall (cpu_counts i) s)) ss')
                         st)))
    as [-> ->].
  rewrite update_ui_status_bar. cbn [head]. simpl in Hp, Hs, Hperf.
  rewrite Hp, Hs, Hperf. repeat split.
Qed.

(** ** Window icon *)

Lemma try_icon_names_icon_file raises names window :
  icon_file (try_icon_names raises names window) = icon_file window.
Proof.
  induction names as [|name names IH]; simpl; [reflexivity|].
  now destruct (raises name).
Qed.

Lemma try_icon_paths_first_loadable path_exists set_icon_from_file paths :
  forall window printed,
  try_icon_paths path_exists set_icon_from_file paths window printed
  = match first_loadable path_exists set_icon_from_file paths with
    | Some (k, path) =>
        ({| icon_name := icon_name window; icon_file := Some path |},
         printed ++ load_messages path_exists set_icon_from_file (take k paths))
    | None =>
        (window, printed ++ load_messages path_exists set_icon_from_file paths)
    end.
Proof.
  unfold first_loadable.
  induction paths as [|path paths IH]; intros window printed; simpl.
  - now rewrite app_nil_r.
  - destruct (path_exists path) eqn:He; simpl.
    + destruct (set_icon_from_file path) as [|e] eqn:Hl; simpl.
      * now rewrite app_nil_r.
      * rewrite IH.
        destruct (list_find _ paths) as [[k p]|]; unfold load_messages; simpl;
          rewrite ?He, ?Hl, <- app_assoc; reflexivity.
    + rewrite IH.
      destruct (list_find _ paths) as [[k p]|]; unfold load_messages; simpl;
        rewrite ?He; reflexivity.
Qed.

(** X18: The icon file of the window is the first candidate path, in the order
    of the list, that exists and loads, whether or not a theme icon name was
    accepted before; one line is printed for each existing candidate ahead
    of it that failed to load, and when no candidate loads the icon file is
    left as it was and every existing candidate has its line. *)
Theorem set_window_icon_takes_first_loadable_file (expanduser : string -> string)
    (set_icon_name_raises path_exists : string -> bool)
    (set_icon_from_file : string -> LoadOutcome) (window : Window) :
  let after := set_window_icon expanduser set_icon_name_raises path_exists
                 set_icon_from_file window in
  match first_loadable path_exists set_icon_from_file (icon_paths expanduser) with
  | Some (k, path) =>
      icon_file (fst after) = Some path /\
      snd after = load_messages path_exists set_icon_from_file
                    (take k (icon_paths expanduser))
  | None =>
      icon_file (fst after) = icon_file window /\
      snd after = load_messages path_exists set_icon_from_file (icon_paths expanduser)
  end.
Proof.
  cbv zeta. unfold set_window_icon. rewrite try_icon_paths_first_loadable.
  destruct (first_loadable _ _ _) as [[k path]|]; cbn [fst snd icon_file];
    split; try reflexivity.
  apply try_icon_names_icon_file.
Qed.

Lemma try_icon_paths_icon_name path_exists set_icon_from_file paths window printed :
  icon_name (fst (try_icon_paths path_exists set_icon_from_file paths window printed))
  = icon_name window.
Proof.
  rewrite try_icon_paths_first_loadable.
  now destruct (first_loadable _ _ _) as [[k path]|].
Qed.

(** X19: The icon name of the window is the first of the three names that the
    toolkit accepts without raising; the later names are not tried, and when
    all three raise the name is left as it was. *)
Theorem set_window_icon_takes_first_accepted_name (expanduser : string -> string)
    (set_icon_name_raises path_exists : string -> bool)
    (set_icon_from_file : string -> LoadOutcome) (window : Window) :
  icon_name (fst (set_window_icon expanduser set_icon_name_raises path_exists
                    set_icon_from_file window))
  = match list_find (fun name => set_icon_name_raises name = false) icon_names with
    | Some (_, name) => Some name
    | None => icon_name window
    end.
Proof.
  unfold set_window_icon. rewrite try_icon_paths_icon_name.
  induction icon_names as [|name names IH]; simpl; [reflexivity|].
  destruct (set_icon_name_raises name) eqn:Hr; simpl; [|reflexivity].
  rewrite IH. now destruct (list_find _ names) as [[k n]|].
Qed.

Example set_window_icon_sample :
  set_window_icon sample_expanduser (fun _ => false) sample_path_exists
    sample_set_icon_from_file (mkWindow None None)
  = (mkWindow (Some "modern-task-manager")
              (Some "/usr/share/pixmaps/modern-task-manager.png"),
     ["Could not load icon from /home/thabiso/.local/share/icons/hicolor/256x256/apps/modern-task-manager.png: Unrecognized image file format"]).
Proof. vm_compute. reflexivity. Qed.

Example main_loop_sample :
  let st := main_loop sample_actions (mkUiState gui_kernel_selected []) in
  map proc_pid (rows (treeview (ui_gui st))) = [1] /\
  terminated (ui_log st) = [4242] /\
  head (status_bar (ui_gui st)) = Some "Process bash (deleted) terminated" /\
  processes_scroll_pos (ui_gui st) = 48%float.
Proof. vm_compute. repeat split. Qed.
